(** * Wedding planner: aggregation, mutations, render scheduling, storage

    A shallow embedding of the three variants of the planner:

    - [App]        the chatan_v3 engine         (docs/script.js, first part)
    - [WeddingApp] the optimised engine         (docs/script.js, second part)
    - [Legacy]     the first WeddingApp version (the unnamed source file)

    Conventions of the embedding.

    - A JavaScript number is a [num]: NaN, the two infinities, or a finite
      value.  Finite doubles are taken as exact rationals ([Qc]): the rounding
      of IEEE arithmetic and the sign of zero are not represented.
    - A scalar JavaScript value is a [value]; an entity (expense, guest, task,
      settings) is a JavaScript object holding scalars, a [gmap string value];
      reading a key that is not there gives [VUndef], as in the language.
    - Strings are byte strings holding UTF-8, so [===] on the status strings
      is equality of the bytes.
    - What the browser supplies (form inputs, the clock, the answer to a
      confirm dialogue, whether the storage accepts a write) is an argument
      or a field of the state; what the code shows to the user (toasts,
      highlighted inputs, redraws) is appended to a log of events. *)

From Stdlib Require Import QArith Qcanon Qround ZArith Ascii String.
From stdpp Require Import gmap strings list fin_maps relations.

Local Open Scope string_scope.
Local Open Scope nat_scope.

(* ===================================================================== *)
(** * The fragment of JavaScript the planner uses                         *)
(* ===================================================================== *)

Module JS.

(** ** Numbers *)

Inductive num : Type :=
| NaN
| PInf
| NInf
| Fin (q : Qc).

Definition of_Z (z : Z) : num := Fin (Qc_of_Z z).
Definition of_nat (n : nat) : num := of_Z (Z.of_nat n).

Definition Qc_ltb (a b : Qc) : bool := negb (Qle_bool b a).
Definition Qc_is0 (a : Qc) : bool := Qeq_bool a 0.

(** [a < b]; every comparison with NaN is false. *)
Definition num_lt (a b : num) : bool :=
  match a, b with
  | NaN, _ | _, NaN => false
  | NInf, NInf => false
  | NInf, _ => true
  | _, NInf => false
  | PInf, _ => false
  | Fin _, PInf => true
  | Fin x, Fin y => Qc_ltb x y
  end.

(** [a > b] and [a >= b]. *)
Definition num_gt (a b : num) : bool := num_lt b a.

Definition num_ge (a b : num) : bool :=
  match a, b with
  | NaN, _ | _, NaN => false
  | _, _ => negb (num_lt a b)
  end.

Definition num_neg (a : num) : num :=
  match a with
  | NaN => NaN
  | PInf => NInf
  | NInf => PInf
  | Fin x => Fin (- x)%Qc
  end.

Definition num_add (a b : num) : num :=
  match a, b with
  | NaN, _ | _, NaN => NaN
  | PInf, NInf | NInf, PInf => NaN
  | PInf, _ | _, PInf => PInf
  | NInf, _ | _, NInf => NInf
  | Fin x, Fin y => Fin (x + y)%Qc
  end.

Definition num_sub (a b : num) : num := num_add a (num_neg b).

(** The sign of a number that is not NaN: -1, 0 or 1. *)
Definition sign (a : num) : Z :=
  match a with
  | NaN => 0
  | PInf => 1
  | NInf => -1
  | Fin x => if Qc_is0 x then 0 else if Qc_ltb x 0 then -1 else 1
  end%Z.

Definition inf_of_sign (s : Z) : num :=
  if (s <? 0)%Z then NInf else if (0 <? s)%Z then PInf else NaN.

Definition num_mul (a b : num) : num :=
  match a, b with
  | NaN, _ | _, NaN => NaN
  | Fin x, Fin y => Fin (x * y)%Qc
  | _, _ => inf_of_sign (sign a * sign b)
  end.

(** Division: a finite value over zero is an infinity of the sign of the
    numerator, zero over zero is NaN (zero is taken as positive zero). *)
Definition num_div (a b : num) : num :=
  match a, b with
  | NaN, _ | _, NaN => NaN
  | Fin x, Fin y => if Qc_is0 y then inf_of_sign (sign a) else Fin (x / y)%Qc
  | Fin _, _ => Fin 0
  | _, Fin y => if Qc_ltb y 0 then num_neg a else a
  | _, _ => NaN
  end.

Definition Math_min (a b : num) : num :=
  match a, b with
  | NaN, _ | _, NaN => NaN
  | _, _ => if num_lt b a then b else a
  end.

Definition Math_max (a b : num) : num :=
  match a, b with
  | NaN, _ | _, NaN => NaN
  | _, _ => if num_lt a b then b else a
  end.

(** [Math.round]: the nearest integer, a tie going upwards. *)
Definition Math_round (a : num) : num :=
  match a with
  | Fin x => of_Z (Qfloor (x + Q2Qc (1 # 2))%Qc)
  | _ => a
  end.

(** [Math.abs]. *)
Definition Math_abs (a : num) : num :=
  match a with
  | NaN => NaN
  | PInf | NInf => PInf
  | Fin x => if Qc_ltb x 0 then Fin (- x)%Qc else a
  end.

(** Truthiness of a number: zero and NaN are falsy. *)
Definition num_truthy (a : num) : bool :=
  match a with
  | NaN => false
  | Fin x => negb (Qc_is0 x)
  | _ => true
  end.

(** [n || d] on numbers. *)
Definition num_or (n d : num) : num := if num_truthy n then n else d.

Definition is_finite (a : num) : bool :=
  match a with Fin _ => true | _ => false end.

(** ** Strings: white space, trimming, conversion to a number *)

Definition byte_is (c : ascii) (n : nat) : bool := Nat.eqb (nat_of_ascii c) n.

(** TAB, LF, VT, FF, CR and SPACE. *)
Definition ws1 (c : ascii) : bool :=
  let n := nat_of_ascii c in
  ((9 <=? n) && (n <=? 13)) || (n =? 32).

(** U+00A0, in UTF-8. *)
Definition ws2 (c1 c2 : ascii) : bool := byte_is c1 194 && byte_is c2 160.

(** U+1680, U+2000..U+200A, U+2028, U+2029, U+202F, U+205F, U+3000 and
    U+FEFF, in UTF-8. *)
Definition ws3 (c1 c2 c3 : ascii) : bool :=
  let n3 := nat_of_ascii c3 in
  (byte_is c1 225 && byte_is c2 154 && byte_is c3 128)
  || (byte_is c1 226 && byte_is c2 128 &&
      (((128 <=? n3) && (n3 <=? 138)) || (n3 =? 168) || (n3 =? 169) || (n3 =? 175)))
  || (byte_is c1 226 && byte_is c2 129 && byte_is c3 159)
  || (byte_is c1 227 && byte_is c2 128 && byte_is c3 128)
  || (byte_is c1 239 && byte_is c2 187 && byte_is c3 191).

Fixpoint trimStart (s : string) : string :=
  match s with
  | String c1 r1 =>
      if ws1 c1 then trimStart r1 else
      match r1 with
      | String c2 r2 =>
          if ws2 c1 c2 then trimStart r2 else
          match r2 with
          | String c3 r3 => if ws3 c1 c2 c3 then trimStart r3 else s
          | EmptyString => s
          end
      | EmptyString => s
      end
  | EmptyString => s
  end.

(** The same on the reversed bytes, for the end of the string. *)
Fixpoint trimStart_rev (s : string) : string :=
  match s with
  | String c1 r1 =>
      if ws1 c1 then trimStart_rev r1 else
      match r1 with
      | String c2 r2 =>
          if ws2 c2 c1 then trimStart_rev r2 else
          match r2 with
          | String c3 r3 => if ws3 c3 c2 c1 then trimStart_rev r3 else s
          | EmptyString => s
          end
      | EmptyString => s
      end
  | EmptyString => s
  end.

(** [String.prototype.trim]. *)
Definition trim (s : string) : string :=
  String.rev (trimStart_rev (String.rev (trimStart s))).

Definition digit_of (radix : nat) (c : ascii) : option Z :=
  let n := nat_of_ascii c in
  let d :=
    if (48 <=? n) && (n <=? 57) then Some (n - 48)
    else if (97 <=? n) && (n <=? 102) then Some (n - 87)
    else if (65 <=? n) && (n <=? 70) then Some (n - 55)
    else None in
  match d with
  | Some k => if k <? radix then Some (Z.of_nat k) else None
  | None => None
  end.

(** Reads digits of the radix, returning the accumulated value, how many
    digits were read and the rest of the string. *)
Fixpoint take_digits (radix : nat) (s : string) (acc : Z) (cnt : nat)
  : Z * nat * string :=
  match s with
  | String c r =>
      match digit_of radix c with
      | Some d => take_digits radix r (Z.of_nat radix * acc + d)%Z (S cnt)
      | None => (acc, cnt, s)
      end
  | EmptyString => (acc, cnt, s)
  end.

(** The whole string is digits of the radix, at least one. *)
Definition all_digits (radix : nat) (s : string) : option Z :=
  match take_digits radix s 0 0 with
  | (v, S _, EmptyString) => Some v
  | _ => None
  end.

(** The exponent part: nothing, or [e] or [E], an optional sign, digits. *)
Definition exponent (s : string) : option Z :=
  match s with
  | EmptyString => Some 0%Z
  | String c r =>
      if byte_is c 101 || byte_is c 69 then
        match r with
        | String "+" r' => all_digits 10 r'
        | String "-" r' => option_map Z.opp (all_digits 10 r')
        | _ => all_digits 10 r
        end
      else None
  end.

Definition scale10 (m e : Z) : Qc :=
  Q2Qc (inject_Z m * Qpower (10 # 1) e).

(** An unsigned decimal literal: digits, an optional fraction, an optional
    exponent; or [Infinity]. *)
Definition unsigned_decimal (s : string) : num :=
  if String.eqb s "Infinity" then PInf else
  let '(ip, ni, r1) := take_digits 10 s 0 0 in
  match r1 with
  | String "." r2 =>
      let '(m, nf, r3) := take_digits 10 r2 ip 0 in
      match ni + nf, exponent r3 with
      | S _, Some e => Fin (scale10 m (e - Z.of_nat nf))
      | _, _ => NaN
      end
  | _ =>
      match ni, exponent r1 with
      | S _, Some e => Fin (scale10 ip e)
      | _, _ => NaN
      end
  end.

Definition radix_literal (s : string) : option num :=
  match s with
  | String "0" (String c r) =>
      let lit radix := Some (from_option of_Z NaN (all_digits radix r)) in
      if byte_is c 120 || byte_is c 88 then lit 16%nat
      else if byte_is c 111 || byte_is c 79 then lit 8%nat
      else if byte_is c 98 || byte_is c 66 then lit 2%nat
      else None
  | _ => None
  end.

(** The conversion of a string to a number: surrounding white space is
    dropped, the empty string is 0, and anything that is not a numeric
    literal is NaN. *)
Definition StringToNumber (s : string) : num :=
  let t := trim s in
  match t with
  | EmptyString => Fin 0
  | String "+" r => unsigned_decimal r
  | String "-" r => num_neg (unsigned_decimal r)
  | _ =>
      match radix_literal t with
      | Some n => n
      | None => unsigned_decimal t
      end
  end.

(** [parseInt(s, 10)]: leading white space, an optional sign, then the
    longest run of decimal digits; NaN when there is no digit. *)
Definition parseInt10 (s : string) : num :=
  let t := trimStart s in
  let '(neg, r) :=
    match t with
    | String "-" r => (true, r)
    | String "+" r => (false, r)
    | _ => (false, t)
    end in
  match take_digits 10 r 0 0 with
  | (v, S _, _) => of_Z (if neg then - v else v)
  | _ => NaN
  end.

(** ** Values *)

Inductive value : Type :=
| VUndef
| VNull
| VBool (b : bool)
| VNum (n : num)
| VStr (s : string).

(** [Number(v)], also the conversion applied by unary [+] and by the
    arithmetic operators. *)
Definition Number (v : value) : num :=
  match v with
  | VUndef => NaN
  | VNull => Fin 0
  | VBool true => Fin 1
  | VBool false => Fin 0
  | VNum n => n
  | VStr s => StringToNumber s
  end.

(** Truthiness, as tested by [!v], [v || d] and [c ? a : b]. *)
Definition truthy (v : value) : bool :=
  match v with
  | VUndef | VNull => false
  | VBool b => b
  | VNum n => num_truthy n
  | VStr s => negb (String.eqb s EmptyString)
  end.

(** [a || b] on values. *)
Definition val_or (a b : value) : value := if truthy a then a else b.

(** [s || d] on strings. *)
Definition str_or (s d : string) : string :=
  if String.eqb s EmptyString then d else s.

(** [a === b]. *)
Definition strict_eq (a b : value) : bool :=
  match a, b with
  | VUndef, VUndef | VNull, VNull => true
  | VBool x, VBool y => Bool.eqb x y
  | VStr x, VStr y => String.eqb x y
  | VNum (Fin x), VNum (Fin y) => Qeq_bool x y
  | VNum PInf, VNum PInf | VNum NInf, VNum NInf => true
  | _, _ => false
  end.

(** ** Objects and arrays *)

(** An object whose properties hold scalars. *)
Abbreviation obj := (gmap string value).

(** [o.k] and [o[k]]: a property that is not there reads as [undefined]. *)
Definition get (o : obj) (k : string) : value := default VUndef (o !! k).

(** [ToIntegerOrInfinity], for a finite number: truncation towards zero. *)
Definition truncate (q : Qc) : Z :=
  if Qc_ltb q 0 then Qceiling q else Qfloor q.

(** Where [splice(start, ...)] starts in an array of length [len]: NaN is
    0, a negative start counts from the end, and the result is clamped to
    [0, len]. *)
Definition splice_start (len : nat) (start : num) : nat :=
  match start with
  | NaN | NInf => 0
  | PInf => len
  | Fin q =>
      let k := truncate q in
      if (k <? 0)%Z then Z.to_nat (Z.max (Z.of_nat len + k) 0)
      else Z.to_nat (Z.min k (Z.of_nat len))
  end.

(** [a.splice(start, 1)]: the array after the call. *)
Definition splice1 {A} (a : list A) (start : num) : list A :=
  delete (splice_start (length a) start) a.

(** ** JSON *)

(** What [JSON.stringify] keeps of a scalar: a property holding
    [undefined] is left out, NaN and the infinities are written as
    [null]. *)
Definition json_value (v : value) : option value :=
  match v with
  | VUndef => None
  | VNum n => if is_finite n then Some v else Some VNull
  | _ => Some v
  end.

Definition json_obj (o : obj) : obj := omap json_value o.

(** The top level of a parsed document: any of the keys may be absent. *)
Record parsed : Type := {
  p_onboarded : option value;
  p_settings : option obj;
  p_expenses : option (list obj);
  p_guests : option (list obj);
  p_tasks : option (list obj);
}.

(** The text held under a storage key, up to what [JSON.parse] makes of
    it: the empty string, a text it rejects, or a text it reads as an
    object with the top-level keys of a document (texts that parse to
    anything else are not represented). *)
Inductive text : Type :=
| EmptyText
| Unparsable
| Json (p : parsed).

(** [JSON.parse]: [None] when it throws. *)
Definition JSON_parse (t : text) : option parsed :=
  match t with
  | Json p => Some p
  | _ => None
  end.

(** [localStorage], for the one key the application uses: the item, and
    whether the browser accepts a write (it throws when the quota is
    exceeded). *)
Record storage : Type := {
  item : option text;
  writable : bool;
}.

(** [localStorage.setItem]: [None] when it throws. *)
Definition setItem (s : storage) (t : text) : option storage :=
  if writable s then Some {| item := Some t; writable := true |} else None.

Definition removeItem (s : storage) : storage :=
  {| item := None; writable := writable s |}.

(** ** What the user sees *)

Inductive event : Type :=
| Toast (msg kind : string)
| Shake (id : string)
| Alert (msg : string)
| ConsoleError
| ModalClosed
| CountdownRestarted
| Redraw
| ListDrawn (name : string).

(** A callback handed to [requestAnimationFrame]. *)
Inductive callback : Type :=
| CbRender
| CbFocus (id : string).

(** ** The string operations of the HTML escaping helper *)

(** [map[c]] for one of the five characters the regular expression of the
    helper matches (ampersand, less-than, greater-than, double quote,
    apostrophe), [None] for any other.  The five characters are ASCII, and
    an ASCII byte is never part of a longer UTF-8 sequence, so the bytes
    can be looked at one by one. *)
Definition entity (c : ascii) : option string :=
  if Ascii.eqb c "&" then Some "&amp;"
  else if Ascii.eqb c "<" then Some "&lt;"
  else if Ascii.eqb c ">" then Some "&gt;"
  else if Ascii.eqb c (ascii_of_nat 34) then Some "&quot;"
  else if Ascii.eqb c "'" then Some "&#039;"
  else None.

(** [s.replace(re, c => map[c])], [re] being the global regular expression
    that matches any one of the five characters. *)
Fixpoint replace_specials (s : string) : string :=
  match s with
  | EmptyString => EmptyString
  | String c r =>
      match entity c with
      | Some e => e +:+ replace_specials r
      | None => String c (replace_specials r)
      end
  end.

Section ToString.

(** How [String(n)] writes a number is left to the runtime: nothing below
    depends on the digits it produces. *)
Variable NumberToString : num → string.

(** [String(v)]. *)
Definition ToString (v : value) : string :=
  match v with
  | VUndef => "undefined"
  | VNull => "null"
  | VBool true => "true"
  | VBool false => "false"
  | VNum n => NumberToString n
  | VStr s => s
  end.

End ToString.

(** ** What the views use *)

(** [Math.floor]. *)
Definition Math_floor (a : num) : num :=
  match a with
  | Fin x => of_Z (Qfloor x)
  | _ => a
  end.

(** [a % b]: the remainder of the truncated division, NaN for a divisor
    that is zero and for a dividend that is not finite. *)
Definition num_rem (a b : num) : num :=
  match a, b with
  | Fin x, Fin y =>
      if Qc_is0 y then NaN else Fin (x - y * Qc_of_Z (truncate (x / y)))%Qc
  | Fin _, PInf | Fin _, NInf => a
  | _, _ => NaN
  end.

(** An array with the position of each element: what [a.indexOf(x)] gives
    for an element [x] met while going through [a], or through a filtered
    or sorted copy of it.  ([indexOf] compares objects by identity, and the
    entities of a list are distinct objects: each is made by an object
    literal of its own or by [JSON.parse].) *)
Definition indexed {A} (a : list A) : list (nat * A) := imap (λ i x, (i, x)) a.

(** [s.includes(t)]: [t] occurs in [s]. *)
Fixpoint includes (s t : string) : bool :=
  String.prefix t s
  || match s with
     | String _ r => includes r t
     | EmptyString => false
     end.

(** [o.k.includes(t)]: [None] when it throws, the property not holding a
    string. *)
Definition property_includes (k t : string) (o : obj) : option bool :=
  match get o k with
  | VStr s => Some (includes s t)
  | _ => None
  end.

(** [a.filter(p)] for a test that may throw: [None] when it throws on an
    element. *)
Fixpoint filter_throw {A} (p : A → option bool) (a : list A) : option (list A) :=
  match a with
  | [] => Some []
  | x :: r =>
      match p x with
      | Some b =>
          match filter_throw p r with
          | Some r' => Some (if b then x :: r' else r')
          | None => None
          end
      | None => None
      end
  end.

(** [a.sort(cmp)], [cmp x y] being the number the comparator returns (NaN
    counts as 0).  The sort of the language is stable, which fixes its
    result for a comparator that is a consistent ordering; for any other
    the order is left to the implementation, and this is the one an
    insertion sort gives. *)
Fixpoint sort_insert {A} (cmp : A → A → num) (x : A) (l : list A) : list A :=
  match l with
  | [] => [x]
  | y :: r => if num_gt (cmp x y) (Fin 0) then y :: sort_insert cmp x r else x :: l
  end.

Definition Array_sort {A} (cmp : A → A → num) (a : list A) : list A :=
  foldr (sort_insert cmp) [] a.

(** The digits [String(i)] writes for an array index [i], as a template
    literal puts them into an attribute. *)
Definition digit_char (d : nat) : ascii := ascii_of_nat (48 + d).

Fixpoint index_digits (fuel n : nat) (acc : string) : string :=
  match fuel with
  | 0 => acc
  | S f =>
      let acc' := String (digit_char (n mod 10)) acc in
      if n <? 10 then acc' else index_digits f (n / 10) acc'
  end.

Definition index_to_string (i : nat) : string := index_digits (S i) i EmptyString.

End JS.

Import JS.

(* ===================================================================== *)
(** * App: the chatan_v3 engine                                           *)
(* ===================================================================== *)

Module App.

(** ** Data *)

Record document : Type := {
  onboarded : value;
  settings : obj;
  expenses : list obj;
  guests : list obj;
  tasks : list obj;
}.

Definition default_settings : obj :=
  <["groom" := VStr "החתן"]>
  (<["bride" := VStr "הכלה"]>
  (<["date" := VStr EmptyString]>
  (<["budget" := VNum (of_Z 150000)]>
  (<["guest_estimate" := VNum (of_Z 300)]> ∅)))).

Definition defaults : document := {|
  onboarded := VBool false;
  settings := default_settings;
  expenses := [];
  guests := [];
  tasks := [];
|}.

(** The object [compute] caches. *)
Record snapshot : Type := {
  totalCost : num;
  totalPaid : num;
  expRemaining : num;
  budgetLeft : num;
  budgetPercent : num;
  totalGuests : num;
  confirmed : num;
  pending : num;
  declined : num;
  gifts : num;
  doneTasks : nat;
  totalTasks : nat;
  taskPercent : num;
  weddingProgress : num;
}.

Record state : Type := {
  data : document;
  _cache : option snapshot;
  _raf : bool;
  frame_queue : list callback;
  store : storage;
  log : list event;
}.

Definition set_data (d : document) (st : state) : state :=
  {| data := d; _cache := _cache st; _raf := _raf st;
     frame_queue := frame_queue st; store := store st; log := log st |}.

Definition set_cache (c : option snapshot) (st : state) : state :=
  {| data := data st; _cache := c; _raf := _raf st;
     frame_queue := frame_queue st; store := store st; log := log st |}.

Definition set_raf (b : bool) (st : state) : state :=
  {| data := data st; _cache := _cache st; _raf := b;
     frame_queue := frame_queue st; store := store st; log := log st |}.

Definition set_frame_queue (q : list callback) (st : state) : state :=
  {| data := data st; _cache := _cache st; _raf := _raf st;
     frame_queue := q; store := store st; log := log st |}.

Definition set_store (s : storage) (st : state) : state :=
  {| data := data st; _cache := _cache st; _raf := _raf st;
     frame_queue := frame_queue st; store := s; log := log st |}.

Definition emit (e : event) (st : state) : state :=
  {| data := data st; _cache := _cache st; _raf := _raf st;
     frame_queue := frame_queue st; store := store st; log := log st ++ [e] |}.

Definition set_settings (s : obj) (d : document) : document :=
  {| onboarded := onboarded d; settings := s; expenses := expenses d;
     guests := guests d; tasks := tasks d |}.

Definition set_expenses (l : list obj) (d : document) : document :=
  {| onboarded := onboarded d; settings := settings d; expenses := l;
     guests := guests d; tasks := tasks d |}.

Definition set_guests (l : list obj) (d : document) : document :=
  {| onboarded := onboarded d; settings := settings d; expenses := expenses d;
     guests := l; tasks := tasks d |}.

Definition set_tasks (l : list obj) (d : document) : document :=
  {| onboarded := onboarded d; settings := settings d; expenses := expenses d;
     guests := guests d; tasks := l |}.

Definition set_onboarded (v : value) (d : document) : document :=
  {| onboarded := v; settings := settings d; expenses := expenses d;
     guests := guests d; tasks := tasks d |}.

Definition requestAnimationFrame (cb : callback) (st : state) : state :=
  set_frame_queue (frame_queue st ++ [cb]) st.

(** The application object as the script creates it, over a given storage.
    ([data] is [null] until [load] runs, and [load] does not read it; the
    defaults stand in for it here.) *)
Definition boot (s : storage) : state :=
  {| data := defaults; _cache := None; _raf := false; frame_queue := [];
     store := s; log := [] |}.

(** ** Data layer *)

(** [JSON.stringify(this.data)]. *)
Definition JSON_stringify (d : document) : text :=
  Json {| p_onboarded := json_value (onboarded d);
          p_settings := Some (json_obj (settings d));
          p_expenses := Some (json_obj <$> expenses d);
          p_guests := Some (json_obj <$> guests d);
          p_tasks := Some (json_obj <$> tasks d) |}.

(** [{...this.defaults, ...parsed,
      settings: {...this.defaults.settings, ...parsed.settings}}]. *)
Definition merge_defaults (p : parsed) : document := {|
  onboarded := default (onboarded defaults) (p_onboarded p);
  settings := default ∅ (p_settings p) ∪ settings defaults;
  expenses := default (expenses defaults) (p_expenses p);
  guests := default (guests defaults) (p_guests p);
  tasks := default (tasks defaults) (p_tasks p);
|}.

Definition load (st : state) : state :=
  match item (store st) with
  | Some (Json p) => set_data (merge_defaults p) st
  | Some EmptyText | None => set_data defaults st
  | Some Unparsable => set_data defaults (emit ConsoleError st)
  end.

Definition toast (msg kind : string) (st : state) : state :=
  emit (Toast msg kind) st.

Definition scheduleRender (st : state) : state :=
  if _raf st then st
  else requestAnimationFrame CbRender (set_raf true st).

Definition save (st : state) : state :=
  let st1 :=
    match setItem (store st) (JSON_stringify (data st)) with
    | Some s => set_store s st
    | None => toast "שגיאה בשמירה" "error" (emit ConsoleError st)
    end in
  scheduleRender (set_cache None st1).

(** ** Compute *)

(** The body of the loop over the expenses, on (totalCost, totalPaid). *)
Definition expense_step (acc : num * num) (e : obj) : num * num :=
  (num_add acc.1 (num_or (Number (get e "cost")) (Fin 0)),
   num_add acc.2 (num_or (Number (get e "paid")) (Fin 0))).

Record guest_acc : Type := {
  a_totalGuests : num;
  a_confirmed : num;
  a_pending : num;
  a_declined : num;
  a_gifts : num;
}.

(** The body of the loop over the guests. *)
Definition guest_step (acc : guest_acc) (g : obj) : guest_acc :=
  let cnt := num_or (Number (get g "count")) (Fin 1) in
  let is_confirmed := strict_eq (get g "status") (VStr "מגיע") in
  let is_declined := strict_eq (get g "status") (VStr "לא מגיע") in
  {| a_totalGuests := num_add (a_totalGuests acc) cnt;
     a_gifts := num_add (a_gifts acc) (num_or (Number (get g "gift")) (Fin 0));
     a_confirmed :=
       if is_confirmed then num_add (a_confirmed acc) cnt else a_confirmed acc;
     a_declined :=
       if is_confirmed then a_declined acc
       else if is_declined then num_add (a_declined acc) cnt
       else a_declined acc;
     a_pending :=
       if is_confirmed then a_pending acc
       else if is_declined then a_pending acc
       else num_add (a_pending acc) cnt |}.

Definition guest_acc0 : guest_acc :=
  {| a_totalGuests := Fin 0; a_confirmed := Fin 0; a_pending := Fin 0;
     a_declined := Fin 0; a_gifts := Fin 0 |}.

(** What [compute] builds when the cache is empty. *)
Definition aggregate (d : document) : snapshot :=
  let exp := expenses d in
  let gst := guests d in
  let tsk := tasks d in
  let '(totalCost, totalPaid) := fold_left expense_step exp (Fin 0, Fin 0) in
  let g := fold_left guest_step gst guest_acc0 in
  let doneTasks := length (List.filter (λ t, truthy (get t "done")) tsk) in
  let totalTasks := length tsk in
  let progressItems := totalTasks + 2 in
  let progressDone :=
    doneTasks + (if 0 <? length exp then 1 else 0)
              + (if 0 <? length gst then 1 else 0) in
  let weddingProgress :=
    if 0 <? progressItems
    then Math_round (num_mul (num_div (of_nat progressDone) (of_nat progressItems))
                             (of_Z 100))
    else Fin 0 in
  let budget := Number (get (settings d) "budget") in
  {| totalCost := totalCost;
     totalPaid := totalPaid;
     expRemaining := num_sub totalCost totalPaid;
     budgetLeft := num_sub budget totalPaid;
     budgetPercent :=
       if num_gt budget (Fin 0) then Math_min (num_div totalPaid budget) (Fin 1)
       else Fin 0;
     totalGuests := a_totalGuests g;
     confirmed := a_confirmed g;
     pending := a_pending g;
     declined := a_declined g;
     gifts := a_gifts g;
     doneTasks := doneTasks;
     totalTasks := totalTasks;
     taskPercent :=
       if 0 <? totalTasks then num_div (of_nat doneTasks) (of_nat totalTasks)
       else Fin 0;
     weddingProgress := Math_min weddingProgress (of_Z 100) |}.

Definition compute (st : state) : snapshot * state :=
  match _cache st with
  | Some c => (c, st)
  | None => let c := aggregate (data st) in (c, set_cache (Some c) st)
  end.

(** ** Render scheduling *)

(** The five view renderers read the snapshot through [compute] and write
    it to the page. *)
Definition renderAll (st : state) : state :=
  emit Redraw (compute st).2.

(** The callback [scheduleRender] hands to [requestAnimationFrame]: the
    flag is cleared, then the views are drawn.  [during] is what else runs
    while they are drawn; the source draws without calling back into the
    application, which is [during = id]. *)
Definition render_callback (during : state → state) (st : state) : state :=
  during (renderAll (set_raf false st)).

Definition run_callback (during : state → state) (st : state) (cb : callback)
  : state :=
  match cb with
  | CbRender => render_callback during st
  | CbFocus _ => st
  end.

(** An animation frame: the browser runs the callbacks queued so far;
    what they queue waits for the next frame. *)
Definition animation_frame_with (during : state → state) (st : state) : state :=
  fold_left (run_callback during) (frame_queue st) (set_frame_queue [] st).

Definition animation_frame : state → state := animation_frame_with id.

(** ** Mutations *)

Definition shakeEl (id : string) (st : state) : state := emit (Shake id) st.

Definition closeModal (st : state) : state := emit ModalClosed st.

Definition startCountdown (st : state) : state := emit CountdownRestarted st.

(** [Date.now()] and [new Date().toISOString()] at the time of the call. *)
Record clock : Type := {
  Date_now : num;
  toISOString : string;
}.

(** The inputs of the expense modal. *)
Record expense_form : Type := {
  mExpTitle : string;
  mExpCat : string;
  mExpCost : string;
  mExpPaid : string;
  mExpNote : string;
}.

(** The save handler installed by [openExpenseModal]. *)
Definition openExpenseModal_save (f : expense_form) (t : clock) (st : state)
  : state :=
  let title := trim (mExpTitle f) in
  let cost := mExpCost f in
  if negb (truthy (VStr title)) then shakeEl "mExpTitle" st
  else if negb (truthy (VStr cost)) then shakeEl "mExpCost" st
  else
    let e : obj :=
      <["id" := VNum (Date_now t)]>
      (<["title" := VStr title]>
      (<["category" := VStr (mExpCat f)]>
      (<["cost" := VNum (num_or (Number (VStr cost)) (Fin 0))]>
      (<["paid" := VNum (num_or (Number (VStr (mExpPaid f))) (Fin 0))]>
      (<["note" := VStr (trim (mExpNote f))]>
      (<["created" := VStr (toISOString t)]> ∅)))))) in
    let d := data st in
    let st1 := set_data (set_expenses (expenses d ++ [e]) d) st in
    toast "הוצאה נוספה בהצלחה ✓" "success" (closeModal (save st1)).

Definition deleteExpense (confirm : bool) (idx : num) (st : state) : state :=
  if negb confirm then st
  else
    let d := data st in
    let st1 := set_data (set_expenses (splice1 (expenses d) idx) d) st in
    toast "ההוצאה נמחקה" "info" (save st1).

(** The click listener of the expense list, on a delete button whose
    [data-del-exp] attribute is [delExp]: the index is [+delExp]. *)
Definition expList_click (delExp : string) (confirm : bool) (st : state) : state :=
  deleteExpense confirm (Number (VStr delExp)) st.

(** The inputs of the guest modal. *)
Record guest_form : Type := {
  mGName : string;
  mGSide : string;
  mGCount : string;
  mGStatus : string;
  mGGift : string;
}.

(** The save handler installed by [openGuestModal]. *)
Definition openGuestModal_save (f : guest_form) (t : clock) (st : state)
  : state :=
  let name := trim (mGName f) in
  if negb (truthy (VStr name)) then shakeEl "mGName" st
  else
    let g : obj :=
      <["id" := VNum (Date_now t)]>
      (<["name" := VStr name]>
      (<["side" := VStr (mGSide f)]>
      (<["count" := VNum (num_or (Number (VStr (mGCount f))) (Fin 1))]>
      (<["status" := VStr (mGStatus f)]>
      (<["gift" := VNum (num_or (Number (VStr (mGGift f))) (Fin 0))]>
      (<["created" := VStr (toISOString t)]> ∅)))))) in
    let d := data st in
    let st1 := set_data (set_guests (guests d ++ [g]) d) st in
    toast (name +:+ " נוסף/ה לרשימה ✓") "success" (closeModal (save st1)).

Definition deleteGuest (confirm : bool) (idx : num) (st : state) : state :=
  if negb confirm then st
  else
    let d := data st in
    let st1 := set_data (set_guests (splice1 (guests d) idx) d) st in
    toast "האורח הוסר" "info" (save st1).

(** The inputs of the task modal. *)
Record task_form : Type := {
  mTaskTitle : string;
  mTaskCat : string;
}.

(** The save handler installed by [openTaskModal]. *)
Definition openTaskModal_save (f : task_form) (t : clock) (st : state)
  : state :=
  let title := trim (mTaskTitle f) in
  if negb (truthy (VStr title)) then shakeEl "mTaskTitle" st
  else
    let k : obj :=
      <["id" := VNum (Date_now t)]>
      (<["title" := VStr title]>
      (<["category" := VStr (trim (mTaskCat f))]>
      (<["done" := VBool false]>
      (<["created" := VStr (toISOString t)]> ∅)))) in
    let d := data st in
    let st1 := set_data (set_tasks (tasks d ++ [k]) d) st in
    toast "משימה נוספה ✓" "success" (closeModal (save st1)).

(** The index of an array element named by a number: a non-negative
    integer; any other number names no element. *)
Definition array_index (idx : num) : option nat :=
  match idx with
  | Fin q =>
      if Qeq_bool q (inject_Z (Qfloor q)) && (0 <=? Qfloor q)%Z
      then Some (Z.to_nat (Qfloor q)) else None
  | _ => None
  end.

(** [toggleTask]: [None] when reading [done] of a missing element throws. *)
Definition toggleTask (idx : num) (st : state) : option state :=
  let d := data st in
  if num_lt idx (Fin 0) || num_ge idx (of_nat (length (tasks d))) then Some st
  else
    match array_index idx with
    | Some i =>
        match tasks d !! i with
        | Some k =>
            let k' := <["done" := VBool (negb (truthy (get k "done")))]> k in
            let st1 := save (set_data (set_tasks (<[i := k']> (tasks d)) d) st) in
            Some (if truthy (get k' "done")
                  then toast "משימה הושלמה 🎉" "success" st1 else st1)
        | None => None
        end
    | None => None
    end.

Definition deleteTask (confirm : bool) (idx : num) (st : state) : state :=
  if negb confirm then st
  else
    let d := data st in
    let st1 := set_data (set_tasks (splice1 (tasks d) idx) d) st in
    toast "המשימה נמחקה" "info" (save st1).

(** ** Settings and onboarding *)

(** The inputs of the settings modal. *)
Record settings_form : Type := {
  mSGroom : string;
  mSBride : string;
  mSDate : string;
  mSBudget : string;
}.

(** The save handler installed by [openSettings]. *)
Definition openSettings_save (f : settings_form) (st : state) : state :=
  let d := data st in
  let s := settings d in
  let s := <["groom" := VStr (str_or (trim (mSGroom f)) "החתן")]> s in
  let s := <["bride" := VStr (str_or (trim (mSBride f)) "הכלה")]> s in
  let s := <["date" := VStr (mSDate f)]> s in
  let s := <["budget" := VNum (num_or (Number (VStr (mSBudget f))) (Fin 0))]> s in
  let st1 := save (set_data (set_settings s d) st) in
  toast "ההגדרות עודכנו ✓" "success" (startCountdown (closeModal st1)).

(** The inputs of the onboarding wizard. *)
Record onboarding_form : Type := {
  obGroom : string;
  obBride : string;
  obDate : string;
  obBudget : string;
  obGuests : string;
}.

Definition defaultTasks : list (string * string) :=
  [ ("הזמנת אולם", "אולם");
    ("בחירת צלם ווידאו", "צילום");
    ("הזמנת DJ / להקה", "מוזיקה");
    ("בחירת שמלה / חליפה", "לבוש");
    ("שליחת הזמנות", "הזמנות");
    ("טעימות קייטרינג", "קייטרינג");
    ("הזמנת רב / עורך טקס", "טקס");
    ("סידורי רבנות", "טקס");
    ("בחירת עיצוב ופרחים", "עיצוב");
    ("הסעות לאורחים", "לוגיסטיקה") ].

Definition generateDefaultTasks (t : clock) (d : document) : document :=
  set_tasks
    (imap (λ i (tc : string * string),
       <["id" := VNum (num_add (Date_now t) (of_nat i))]>
       (<["title" := VStr tc.1]>
       (<["category" := VStr tc.2]>
       (<["done" := VBool false]>
       (<["created" := VStr (toISOString t)]> (∅ : obj))))))
      defaultTasks)
    d.

Definition showApp (st : state) : state := startCountdown (renderAll st).

Definition finishOnboarding (f : onboarding_form) (t : clock) (st : state)
  : state :=
  let d := data st in
  let s := settings d in
  let s := <["groom" := VStr (str_or (trim (obGroom f)) "החתן")]> s in
  let s := <["bride" := VStr (str_or (trim (obBride f)) "הכלה")]> s in
  let s := <["date" := VStr (obDate f)]> s in
  let s := <["budget" := VNum (num_or (Number (VStr (obBudget f))) (of_Z 150000))]> s in
  let s := <["guest_estimate" :=
               VNum (num_or (Number (VStr (obGuests f))) (of_Z 300))]> s in
  let d := generateDefaultTasks t (set_onboarded (VBool true) (set_settings s d)) in
  toast "מזל טוב! האפליקציה מוכנה 🎉" "success" (showApp (save (set_data d st))).

(** ** Start, reload and reset *)

(** What [init] shows: the onboarding wizard or the application. *)
Inductive screen : Type := OnboardingScreen | AppScreen.

Definition init (st : state) : state * screen :=
  let st1 := load st in
  if negb (truthy (onboarded (data st1))) then (st1, OnboardingScreen)
  else (showApp st1, AppScreen).

(** [location.reload()]: the script runs again over the storage as it
    is. *)
Definition reload (st : state) : state * screen := init (boot (store st)).

(** The click listener [openSettings] puts on the reset button: [None]
    when the user declines, and nothing happens. *)
Definition mSReset_click (confirm : bool) (st : state) : option (state * screen) :=
  if confirm then Some (reload (set_store (removeItem (store st)) st)) else None.

(** ** The countdown *)

(** The three texts [update] writes. *)
Inductive countdown : Type :=
| NoDate
| Congratulations
| TimeLeft (days hrs : num).

(** [update] of [startCountdown]; [getTime v] is [new Date(v).getTime()],
    [now] is [Date.now()]. *)
Definition update (getTime : value → num) (now : num) (d : document) : countdown :=
  let dt := get (settings d) "date" in
  if negb (truthy dt) then NoDate
  else
    let diff := num_sub (getTime dt) now in
    if num_lt diff (Fin 0) then Congratulations
    else
      TimeLeft (Math_floor (num_div diff (of_Z 86400000)))
               (Math_floor (num_div (num_rem diff (of_Z 86400000)) (of_Z 3600000))).

(** ** The lists of the views *)

(** The alert of the budget card. *)
Inductive alert : Type :=
| NoAlert
| WarnAlert (remaining : num)
| DangerAlert (over : num).

(** The alert [renderDashboard] shows for a snapshot. *)
Definition budgetAlert (c : snapshot) : alert :=
  if num_ge (budgetPercent c) (Fin 1) then DangerAlert (Math_abs (budgetLeft c))
  else if num_ge (budgetPercent c) (Fin (Q2Qc (85 # 100))) then WarnAlert (budgetLeft c)
  else NoAlert.

(** The tasks [renderDashboard] lists, each with the index written into
    its [data-toggle-task] attribute. *)
Definition upcomingTasks (d : document) : list (nat * obj) :=
  take 5 (List.filter (λ it : nat * obj, negb (truthy (get it.2 "done")))
                      (indexed (tasks d))).

(** The expenses [renderDashboard] lists. *)
Definition recent (d : document) : list obj := take 3 (rev (expenses d)).

(** The expenses [renderExpenses] draws under the filter chip
    [_activeExpFilter], each with its [realIdx]. *)
Definition shownExpenses (_activeExpFilter : string) (d : document)
  : list (nat * obj) :=
  let list := indexed (expenses d) in
  if negb (String.eqb _activeExpFilter "all")
  then List.filter (λ it : nat * obj,
                      strict_eq (get it.2 "category") (VStr _activeExpFilter)) list
  else list.

(** [paidPercent] of an expense row. *)
Definition paidPercent (ex : obj) : num :=
  let paid := num_or (Number (get ex "paid")) (Fin 0) in
  let cost := num_or (Number (get ex "cost")) (Fin 0) in
  if num_gt cost (Fin 0)
  then Math_round (num_mul (num_div paid cost) (of_Z 100))
  else Fin 0.

(** The guests [renderGuests] draws under the filter chip
    [_activeGuestFilter] and the search text [_guestSearchText], each with
    its [realIdx]; [None] when the search throws. *)
Definition shownGuests (_activeGuestFilter _guestSearchText : string)
    (d : document) : option (list (nat * obj)) :=
  let list := indexed (guests d) in
  let list :=
    if negb (String.eqb _activeGuestFilter "all")
    then List.filter (λ it : nat * obj,
                        strict_eq (get it.2 "status") (VStr _activeGuestFilter)) list
    else list in
  if truthy (VStr _guestSearchText)
  then filter_throw (λ it : nat * obj, property_includes "name" _guestSearchText it.2)
                    list
  else Some list.

(** The badge of a guest row. *)
Definition badgeText (s : value) : string :=
  if strict_eq s (VStr "מגיע") then "מגיע"
  else if strict_eq s (VStr "לא מגיע") then "לא מגיע"
  else "ממתין".

(** The tasks [renderTasks] draws, in the order it draws them, each with
    its [idx]. *)
Definition sorted (d : document) : list (nat * obj) :=
  Array_sort (λ a b : nat * obj,
                num_sub (Number (get a.2 "done")) (Number (get b.2 "done")))
             (indexed (tasks d)).

(** The delete and toggle buttons of the rows: the attribute holds the
    index as [String] writes it, the listener reads it with unary [+]. *)
Definition guestList_click (delGuest : string) (confirm : bool) (st : state) : state :=
  deleteGuest confirm (Number (VStr delGuest)) st.

Definition taskList_click_toggle (toggleTask_attr : string) (st : state)
  : option state :=
  toggleTask (Number (VStr toggleTask_attr)) st.

Definition taskList_click_delete (delTask : string) (confirm : bool) (st : state)
  : state :=
  deleteTask confirm (Number (VStr delTask)) st.

Definition dashTasks_click (toggleTask_attr : string) (st : state) : option state :=
  toggleTask (Number (VStr toggleTask_attr)) st.

(** ** Utilities *)

Definition esc (NumberToString : num → string) (s : value) : string :=
  if negb (truthy s) then EmptyString
  else replace_specials (ToString NumberToString s).

End App.

(* ===================================================================== *)
(** * WeddingApp: the optimised engine                                    *)
(* ===================================================================== *)

Module WeddingApp.

Record document : Type := {
  settings : obj;
  expenses : list obj;
  guests : list obj;
}.

(** The value of [data] in the object literal. *)
Definition initial_settings : obj :=
  <["total_budget" := VNum (of_Z 100000)]>
  (<["groom_name" := VStr "החתן"]>
  (<["bride_name" := VStr "הכלה"]>
  (<["wedding_date" := VStr "2026-06-15"]> ∅))).

Definition initial : document :=
  {| settings := initial_settings; expenses := []; guests := [] |}.

(** The object [_computeTotals] caches. *)
Record totals : Type := {
  totalSpent : num;
  totalGuests : num;
  totalGifts : num;
  remaining : num;
}.

Record state : Type := {
  data : document;
  _cachedTotals : option totals;
  _renderQueued : bool;
  frame_queue : list callback;
  store : storage;
  log : list event;
}.

Definition set_data (d : document) (st : state) : state :=
  {| data := d; _cachedTotals := _cachedTotals st;
     _renderQueued := _renderQueued st; frame_queue := frame_queue st;
     store := store st; log := log st |}.

Definition set_cachedTotals (c : option totals) (st : state) : state :=
  {| data := data st; _cachedTotals := c;
     _renderQueued := _renderQueued st; frame_queue := frame_queue st;
     store := store st; log := log st |}.

Definition set_renderQueued (b : bool) (st : state) : state :=
  {| data := data st; _cachedTotals := _cachedTotals st;
     _renderQueued := b; frame_queue := frame_queue st;
     store := store st; log := log st |}.

Definition set_frame_queue (q : list callback) (st : state) : state :=
  {| data := data st; _cachedTotals := _cachedTotals st;
     _renderQueued := _renderQueued st; frame_queue := q;
     store := store st; log := log st |}.

Definition set_store (s : storage) (st : state) : state :=
  {| data := data st; _cachedTotals := _cachedTotals st;
     _renderQueued := _renderQueued st; frame_queue := frame_queue st;
     store := s; log := log st |}.

Definition emit (e : event) (st : state) : state :=
  {| data := data st; _cachedTotals := _cachedTotals st;
     _renderQueued := _renderQueued st; frame_queue := frame_queue st;
     store := store st; log := log st ++ [e] |}.

Definition set_settings (s : obj) (d : document) : document :=
  {| settings := s; expenses := expenses d; guests := guests d |}.

Definition set_expenses (l : list obj) (d : document) : document :=
  {| settings := settings d; expenses := l; guests := guests d |}.

Definition set_guests (l : list obj) (d : document) : document :=
  {| settings := settings d; expenses := expenses d; guests := l |}.

Definition requestAnimationFrame (cb : callback) (st : state) : state :=
  set_frame_queue (frame_queue st ++ [cb]) st.

(** The application object as the script creates it, over a given storage. *)
Definition boot (s : storage) : state :=
  {| data := initial; _cachedTotals := None; _renderQueued := false;
     frame_queue := []; store := s; log := [] |}.

(** ** Storage *)

Definition JSON_stringify (d : document) : text :=
  Json {| p_onboarded := None;
          p_settings := Some (json_obj (settings d));
          p_expenses := Some (json_obj <$> expenses d);
          p_guests := Some (json_obj <$> guests d);
          p_tasks := None |}.

Definition _scheduleRender (st : state) : state :=
  if _renderQueued st then st
  else requestAnimationFrame CbRender (set_renderQueued true st).

Definition saveData (st : state) : state :=
  let st1 :=
    match setItem (store st) (JSON_stringify (data st)) with
    | Some s => set_store s st
    | None => emit ConsoleError st
    end in
  _scheduleRender (set_cachedTotals None st1).

Definition loadData (st : state) : state :=
  match item (store st) with
  | Some (Json p) =>
      set_data {| settings := default ∅ (p_settings p) ∪ settings (data st);
                  expenses := default [] (p_expenses p);
                  guests := default [] (p_guests p) |} st
  | Some Unparsable => emit ConsoleError st
  | Some EmptyText | None => saveData st
  end.

(** ** Computed values *)

Definition spent_step (totalSpent : num) (e : obj) : num :=
  num_add totalSpent (num_or (Number (get e "paid_amount")) (Fin 0)).

(** The body of the loop over the guests, on (totalGuests, totalGifts). *)
Definition guest_step (acc : num * num) (g : obj) : num * num :=
  (num_add acc.1 (num_or (Number (get g "total_people")) (Fin 1)),
   num_add acc.2 (num_or (Number (get g "gift")) (Fin 0))).

(** What [_computeTotals] builds when the cache is empty. *)
Definition aggregate (d : document) : totals :=
  let totalSpent := fold_left spent_step (expenses d) (Fin 0) in
  let '(totalGuests, totalGifts) := fold_left guest_step (guests d) (Fin 0, Fin 0) in
  {| totalSpent := totalSpent;
     totalGuests := totalGuests;
     totalGifts := totalGifts;
     remaining := num_sub (Number (get (settings d) "total_budget")) totalSpent |}.

Definition _computeTotals (st : state) : totals * state :=
  match _cachedTotals st with
  | Some t => (t, st)
  | None => let t := aggregate (data st) in (t, set_cachedTotals (Some t) st)
  end.

(** The scale of the progress bar drawn by [renderDashboard]. *)
Definition percent (d : document) (t : totals) : num :=
  let total_budget := Number (get (settings d) "total_budget") in
  if num_gt total_budget (Fin 0)
  then Math_min (num_div (totalSpent t) total_budget) (Fin 1)
  else Fin 0.

Definition renderDashboard (st : state) : state :=
  emit Redraw (_computeTotals st).2.

(** ** Render scheduling *)

(** The callback of [_scheduleRender]; [during] as in [App]. *)
Definition render_callback (during : state → state) (st : state) : state :=
  during (renderDashboard (set_renderQueued false st)).

Definition run_callback (during : state → state) (st : state) (cb : callback)
  : state :=
  match cb with
  | CbRender => render_callback during st
  | CbFocus _ => st
  end.

Definition animation_frame_with (during : state → state) (st : state) : state :=
  fold_left (run_callback during) (frame_queue st) (set_frame_queue [] st).

Definition animation_frame : state → state := animation_frame_with id.

(** ** Mutations *)

Definition _shakeInput (id : string) (st : state) : state := emit (Shake id) st.

Definition closeModal (st : state) : state := emit ModalClosed st.

Definition startCountdown (st : state) : state := emit CountdownRestarted st.

Definition renderExpenses (st : state) : state := emit (ListDrawn "expenses") st.

Definition renderGuests (st : state) : state := emit (ListDrawn "guests") st.

Record expense_form : Type := {
  exTitle : string;
  exCost : string;
  exPaid : string;
}.

(** The handler installed by [openExpenseModal]. *)
Definition openExpenseModal_save (f : expense_form) (st : state) : state :=
  let title := trim (exTitle f) in
  let cost := exCost f in
  let paid := exPaid f in
  if negb (truthy (VStr title)) || negb (truthy (VStr cost)) then
    _shakeInput (if negb (truthy (VStr title)) then "exTitle" else "exCost") st
  else
    let e : obj :=
      <["title" := VStr title]>
      (<["estimated_cost" := VNum (Number (VStr cost))]>
      (<["paid_amount" := VNum (num_or (Number (VStr paid)) (Fin 0))]> ∅)) in
    let d := data st in
    let st1 := set_data (set_expenses (expenses d ++ [e]) d) st in
    renderExpenses (closeModal (saveData st1)).

Record guest_form : Type := {
  gName : string;
  gSide : string;
  gCount : string;
  gStatus : string;
  gGift : string;
}.

(** The handler installed by [openGuestModal]. *)
Definition openGuestModal_save (f : guest_form) (st : state) : state :=
  let name := trim (gName f) in
  if negb (truthy (VStr name)) then _shakeInput "gName" st
  else
    let g : obj :=
      <["name" := VStr name]>
      (<["side" := VStr (gSide f)]>
      (<["total_people" := VNum (num_or (Number (VStr (gCount f))) (Fin 1))]>
      (<["status" := VStr (gStatus f)]>
      (<["gift" := VNum (num_or (Number (VStr (gGift f))) (Fin 0))]> ∅)))) in
    let d := data st in
    let st1 := set_data (set_guests (guests d ++ [g]) d) st in
    renderGuests (closeModal (saveData st1)).

Record settings_form : Type := {
  sBudget : string;
  sGroom : string;
  sBride : string;
  sDate : string;
}.

(** The handler installed by [openSettingsModal]. *)
Definition openSettingsModal_save (f : settings_form) (st : state) : state :=
  let d := data st in
  let s := settings d in
  let s := <["total_budget" := VNum (num_or (Number (VStr (sBudget f))) (Fin 0))]> s in
  let s := <["groom_name" := VStr (str_or (trim (sGroom f)) "החתן")]> s in
  let s := <["bride_name" := VStr (str_or (trim (sBride f)) "הכלה")]> s in
  let s := <["wedding_date" := VStr (sDate f)]> s in
  startCountdown (closeModal (saveData (set_data (set_settings s d) st))).

(** The two lists [deleteItem] is called on. *)
Inductive list_name : Type := Expenses | Guests.

Definition deleteItem (confirm : bool) (type : list_name) (index : num)
    (st : state) : state :=
  if negb confirm then st
  else
    let d := data st in
    match type with
    | Expenses =>
        renderExpenses
          (saveData (set_data (set_expenses (splice1 (expenses d) index) d) st))
    | Guests =>
        renderGuests
          (saveData (set_data (set_guests (splice1 (guests d) index) d) st))
    end.

(** The click listener of the expense list, on a delete button whose
    [data-index] attribute is [index]. *)
Definition expensesList_click (index : string) (confirm : bool) (st : state) : state :=
  deleteItem confirm Expenses (parseInt10 index) st.

(** ** Start *)

Definition init (st : state) : state :=
  startCountdown (renderDashboard (loadData st)).

(** ** The countdown *)

(** The two texts [update] writes. *)
Inductive countdown : Type :=
| Passed
| TimeLeft (days hours minutes : num).

(** [update] of [startCountdown]; [getTime v] is [new Date(v).getTime()],
    [now] is [Date.now()]. *)
Definition update (getTime : value → num) (now : num) (d : document) : countdown :=
  let distance := num_sub (getTime (get (settings d) "wedding_date")) now in
  if num_lt distance (Fin 0) then Passed
  else
    TimeLeft (Math_floor (num_div distance (of_Z 86400000)))
             (Math_floor (num_div (num_rem distance (of_Z 86400000)) (of_Z 3600000)))
             (Math_floor (num_div (num_rem distance (of_Z 3600000)) (of_Z 60000))).

(** ** The lists of the views *)

(** The expenses [renderExpenses] draws, each with the index written into
    its [data-index] attribute. *)
Definition shownExpenses (d : document) : list (nat * obj) := indexed (expenses d).

(** The guests [renderGuests(filterText)] draws, each with its
    [realIndex]; [None] when the search throws. *)
Definition shownGuests (filterText : string) (d : document)
  : option (list (nat * obj)) :=
  let searchTerm := trim filterText in
  if truthy (VStr searchTerm)
  then filter_throw (λ it : nat * obj, property_includes "name" searchTerm it.2)
                    (indexed (guests d))
  else Some (indexed (guests d)).

(** The click listener of the guest list, on a delete button whose
    [data-index] attribute is [index]. *)
Definition guestsList_click (index : string) (confirm : bool) (st : state) : state :=
  deleteItem confirm Guests (parseInt10 index) st.

(** ** Utilities *)

Definition _escapeHtml (NumberToString : num → string) (str : value) : string :=
  if negb (truthy str) then EmptyString
  else replace_specials (ToString NumberToString str).

End WeddingApp.

(* ===================================================================== *)
(** * Legacy: the first WeddingApp                                        *)
(* ===================================================================== *)

Module Legacy.

(** The document has the shape of [WeddingApp.document]; the form inputs
    are stored as the strings they are. *)
Abbreviation document := WeddingApp.document.

Record state : Type := {
  data : document;
  store : storage;
  log : list event;
}.

Definition set_data (d : document) (st : state) : state :=
  {| data := d; store := store st; log := log st |}.

Definition set_store (s : storage) (st : state) : state :=
  {| data := data st; store := s; log := log st |}.

Definition emit (e : event) (st : state) : state :=
  {| data := data st; store := store st; log := log st ++ [e] |}.

(** The application object as the script creates it, over a given storage. *)
Definition boot (s : storage) : state :=
  {| data := WeddingApp.initial; store := s; log := [] |}.

(** What [renderDashboard] computes and writes to the page. *)
Record dashboard : Type := {
  totalSpent : num;
  totalGuests : num;
  totalGifts : num;
  remaining : num;
  percent : num;
  (** the number in the width of the progress bar *)
  barWidth : num;
}.

Definition draw (d : document) : dashboard :=
  let s := WeddingApp.settings d in
  let totalSpent :=
    fold_left (λ acc curr,
      num_add acc (Number (val_or (get curr "paid_amount") (VNum (Fin 0)))))
      (WeddingApp.expenses d) (Fin 0) in
  let totalGuests :=
    fold_left (λ acc curr,
      num_add acc (Number (val_or (get curr "total_people") (VNum (Fin 1)))))
      (WeddingApp.guests d) (Fin 0) in
  let totalGifts :=
    fold_left (λ acc curr,
      num_add acc (Number (val_or (get curr "gift") (VNum (Fin 0)))))
      (WeddingApp.guests d) (Fin 0) in
  let remaining := num_sub (Number (get s "total_budget")) totalSpent in
  let percent :=
    num_mul (num_div totalSpent (Number (get s "total_budget"))) (of_Z 100) in
  {| totalSpent := totalSpent;
     totalGuests := totalGuests;
     totalGifts := totalGifts;
     remaining := remaining;
     percent := percent;
     barWidth := Math_min percent (of_Z 100) |}.

Definition renderDashboard (st : state) : state := emit Redraw st.

(** [saveData]: [None] when [setItem] throws; nothing catches it. *)
Definition saveData (st : state) : option state :=
  match setItem (store st) (WeddingApp.JSON_stringify (data st)) with
  | Some s => Some (renderDashboard (set_store s st))
  | None => None
  end.

Definition closeModal (st : state) : state := emit ModalClosed st.

Definition renderExpenses (st : state) : state := emit (ListDrawn "expenses") st.

Definition renderGuests (st : state) : state := emit (ListDrawn "guests") st.

(** A handler that has changed the document to [st1] and then calls
    [saveData] and [rest]: when [saveData] throws the handler ends there,
    the change made in memory stays. *)
Definition save_then (rest : state → state) (st1 : state) : state :=
  match saveData st1 with
  | Some st2 => rest st2
  | None => st1
  end.

(** The handler installed by [openExpenseModal]. *)
Definition openExpenseModal_save (f : WeddingApp.expense_form) (st : state)
  : state :=
  let title := WeddingApp.exTitle f in
  let cost := WeddingApp.exCost f in
  let paid := WeddingApp.exPaid f in
  if negb (truthy (VStr title)) || negb (truthy (VStr cost)) then
    emit (Alert "חובה למלא שם ועלות") st
  else
    let e : obj :=
      <["title" := VStr title]>
      (<["estimated_cost" := VStr cost]>
      (<["paid_amount" := val_or (VStr paid) (VNum (Fin 0))]> ∅)) in
    let d := data st in
    let st1 :=
      set_data (WeddingApp.set_expenses (WeddingApp.expenses d ++ [e]) d) st in
    save_then (λ s, renderExpenses (closeModal s)) st1.

(** The handler installed by [openGuestModal]. *)
Definition openGuestModal_save (f : WeddingApp.guest_form) (st : state)
  : state :=
  let g : obj :=
    <["name" := VStr (WeddingApp.gName f)]>
    (<["side" := VStr (WeddingApp.gSide f)]>
    (<["total_people" := VStr (WeddingApp.gCount f)]>
    (<["status" := VStr (WeddingApp.gStatus f)]>
    (<["gift" := val_or (VStr (WeddingApp.gGift f)) (VNum (Fin 0))]> ∅)))) in
  let d := data st in
  let st1 := set_data (WeddingApp.set_guests (WeddingApp.guests d ++ [g]) d) st in
  save_then (λ s, renderGuests (closeModal s)) st1.

(** The handler installed by [openSettingsModal]. *)
Definition openSettingsModal_save (f : WeddingApp.settings_form) (st : state)
  : state :=
  let d := data st in
  let s := WeddingApp.settings d in
  let s := <["total_budget" := VStr (WeddingApp.sBudget f)]> s in
  let s := <["groom_name" := VStr (WeddingApp.sGroom f)]> s in
  let s := <["bride_name" := VStr (WeddingApp.sBride f)]> s in
  let s := <["wedding_date" := VStr (WeddingApp.sDate f)]> s in
  save_then closeModal (set_data (WeddingApp.set_settings s d) st).

Definition deleteItem (confirm : bool) (type : WeddingApp.list_name)
    (index : num) (st : state) : state :=
  if negb confirm then st
  else
    let d := data st in
    match type with
    | WeddingApp.Expenses =>
        save_then renderExpenses
          (set_data (WeddingApp.set_expenses
                       (splice1 (WeddingApp.expenses d) index) d) st)
    | WeddingApp.Guests =>
        save_then renderGuests
          (set_data (WeddingApp.set_guests
                       (splice1 (WeddingApp.guests d) index) d) st)
    end.

(** The guests [renderGuests(filterText)] draws, each with the index
    written into the call of [deleteItem] on its button: the position in
    the filtered list.  [None] when the search throws. *)
Definition shownGuests (filterText : string) (d : document)
  : option (list (nat * obj)) :=
  indexed <$> filter_throw (property_includes "name" filterText) (WeddingApp.guests d).

(** The [onclick] of the delete button of a guest row drawn with the
    index [index]. *)
Definition guest_row_onclick (index : nat) (confirm : bool) (st : state) : state :=
  deleteItem confirm WeddingApp.Guests (of_nat index) st.

End Legacy.

(* ===================================================================== *)
(** * What the specification says, in the terms of the embedding          *)
(* ===================================================================== *)

(** ** Totals *)

(** The sum of a list of numbers. *)
Definition sum_num (l : list num) : num := foldr num_add (Fin 0) l.

(** A property is missing from an object, or holds a value that does not
    convert to a number. *)
Definition missing_or_non_numeric (o : obj) (k : string) : Prop :=
  o !! k = None ∨ Number (get o k) = NaN.

(** The term a record adds to a total: [Number(o.k) || d]. *)
Definition term (k : string) (d : num) (o : obj) : num :=
  num_or (Number (get o k)) d.

(** A record [x] adds [n] to a total computed from a list, wherever it
    stands in the list. *)
Definition contributes {A} (total : list A → num) (x : A) (n : num) : Prop :=
  ∀ l1 l2 : list A, total (l1 ++ x :: l2)%list = num_add (total (l1 ++ l2)%list) n.

(** The party size the loop adds for a guest. *)
Definition party_size (g : obj) : num := term "count" (Fin 1) g.

(** The three status buckets, and the one a guest falls into. *)
Inductive bucket : Type := Confirmed | Declined | Pending.

Definition bucket_of (g : obj) : bucket :=
  if strict_eq (get g "status") (VStr "מגיע") then Confirmed
  else if strict_eq (get g "status") (VStr "לא מגיע") then Declined
  else Pending.

Definition in_bucket (b : bucket) (g : obj) : bool :=
  match b, bucket_of g with
  | Confirmed, Confirmed | Declined, Declined | Pending, Pending => true
  | _, _ => false
  end.

(** The guests of a bucket, counted with their party sizes. *)
Definition bucket_size (b : bucket) (gs : list obj) : num :=
  sum_num (party_size <$> List.filter (in_bucket b) gs).

(** ** The cache and the states of the application *)

(** The cache, when it holds a snapshot, holds the one of the document. *)
Definition App_coherent (st : App.state) : Prop :=
  ∀ c, App._cache st = Some c → c = App.aggregate (App.data st).

(** One step of the running application: a handler of the mutation API
    runs, or the browser runs an animation frame. *)
Inductive App_step : App.state → App.state → Prop :=
| step_add_expense f t st : App_step st (App.openExpenseModal_save f t st)
| step_delete_expense c i st : App_step st (App.deleteExpense c i st)
| step_add_guest f t st : App_step st (App.openGuestModal_save f t st)
| step_delete_guest c i st : App_step st (App.deleteGuest c i st)
| step_add_task f t st : App_step st (App.openTaskModal_save f t st)
| step_toggle_task i st st' : App.toggleTask i st = Some st' → App_step st st'
| step_delete_task c i st : App_step st (App.deleteTask c i st)
| step_settings f st : App_step st (App.openSettings_save f st)
| step_onboarding f t st : App_step st (App.finishOnboarding f t st)
| step_frame st : App_step st (App.animation_frame st).

(** The states the application can be in, started over a storage [s]. *)
Definition App_reachable (s : storage) (st : App.state) : Prop :=
  rtc App_step (App.load (App.boot s)) st.

Definition WeddingApp_coherent (st : WeddingApp.state) : Prop :=
  ∀ t, WeddingApp._cachedTotals st = Some t →
       t = WeddingApp.aggregate (WeddingApp.data st).

(** The steps of the optimised engine. *)
Inductive WeddingApp_step : WeddingApp.state → WeddingApp.state → Prop :=
| wstep_add_expense f st : WeddingApp_step st (WeddingApp.openExpenseModal_save f st)
| wstep_add_guest f st : WeddingApp_step st (WeddingApp.openGuestModal_save f st)
| wstep_settings f st : WeddingApp_step st (WeddingApp.openSettingsModal_save f st)
| wstep_delete c ty i st : WeddingApp_step st (WeddingApp.deleteItem c ty i st)
| wstep_frame st : WeddingApp_step st (WeddingApp.animation_frame st).

(** Its states: [init] reads the storage and draws the dashboard. *)
Definition WeddingApp_reachable (s : storage) (st : WeddingApp.state) : Prop :=
  rtc WeddingApp_step
      (WeddingApp.renderDashboard (WeddingApp.loadData (WeddingApp.boot s))) st.

(** ** Progress and budget *)

(** [x] clamped to the interval from [lo] to [hi]. *)
Definition clamp (x lo hi : num) : num := Math_max lo (Math_min x hi).

(** The number of tasks whose done flag is set. *)
Definition completed (tsk : list obj) : nat :=
  length (List.filter (λ t, truthy (get t "done")) tsk).

(** One point for a list that is not empty. *)
Definition has_any {A} (l : list A) : nat :=
  match l with [] => 0 | _ => 1 end.

(** The progress percentage, in the words of the specification. *)
Definition progress_spec (d : App.document) : num :=
  let points :=
    completed (App.tasks d) + has_any (App.expenses d) + has_any (App.guests d) in
  clamp (Math_round (num_div (num_mul (of_Z 100) (of_nat points))
                             (of_nat (length (App.tasks d) + 2))))
        (Fin 0) (of_Z 100).

(** A number that is neither negative nor NaN. *)
Definition nonneg (n : num) : bool :=
  match n with
  | Fin q => Qle_bool 0 q
  | PInf => true
  | _ => false
  end.

Definition is_zero (n : num) : bool :=
  match n with Fin q => Qc_is0 q | _ => false end.

(** The paid fraction, in the words of the specification: the clamped
    quotient, and 0 when the budget is 0. *)
Definition paid_fraction_spec (budget totalPaid : num) : num :=
  if is_zero budget then Fin 0
  else clamp (num_div totalPaid budget) (Fin 0) (Fin 1).

(** ** Settings *)

(** The input holds no number to take: it is empty, is not a numeric
    literal, or is zero. *)
Definition no_number (input : string) : Prop :=
  num_truthy (Number (VStr input)) = false.

(** The range the specification gives for the default budget. *)
Definition in_default_range (b : num) : bool :=
  num_ge b (of_Z 100000) && num_ge (of_Z 150000) b.

(** ** Render scheduling *)

(** The redraws in a log. *)
Definition is_redraw (e : event) : bool :=
  match e with Redraw => true | _ => false end.

Definition redraws (l : list event) : nat := length (List.filter is_redraw l).

(** The render callback among the callbacks of the next frame. *)
Definition is_render (cb : callback) : bool :=
  match cb with CbRender => true | _ => false end.

Definition no_render (q : list callback) : bool :=
  forallb (λ cb, negb (is_render cb)) q.

(** No redraw is pending: the flag is down and no render callback waits
    for the next frame. *)
Definition App_idle (st : App.state) : bool :=
  negb (App._raf st) && no_render (App.frame_queue st).

(** A batch of mutations: each one changes the document and calls [save]
    (or [saveData]). *)
Definition App_mutations (ds : list App.document) (st : App.state) : App.state :=
  fold_left (λ s d, App.save (App.set_data d s)) ds st.

Definition WeddingApp_idle (st : WeddingApp.state) : bool :=
  negb (WeddingApp._renderQueued st) && no_render (WeddingApp.frame_queue st).

Definition WeddingApp_mutations (ds : list WeddingApp.document)
    (st : WeddingApp.state) : WeddingApp.state :=
  fold_left (λ s d, WeddingApp.saveData (WeddingApp.set_data d s)) ds st.

(** ** Storage *)

(** A value [JSON.stringify] writes as it is: anything but [undefined],
    NaN and the infinities. *)
Definition json_safe (v : value) : bool :=
  match v with
  | VUndef => false
  | VNum n => is_finite n
  | _ => true
  end.

(** An object whose properties all hold such values. *)
Definition obj_safe (o : obj) : bool :=
  forallb (λ kv : string * value, json_safe kv.2) (map_to_list o).

(** [o] has every key of [model]. *)
Definition has_keys_of (o model : obj) : bool :=
  forallb (λ kv : string * value, bool_decide (is_Some (o !! kv.1))) (map_to_list model).

(** A document the application can hold and write out unchanged: the
    numbers are finite, no property holds [undefined], and in [App] the
    settings have the keys of the default settings, as they do in every
    document [load] builds. *)
Definition App_representable (d : App.document) : bool :=
  json_safe (App.onboarded d)
  && obj_safe (App.settings d)
  && has_keys_of (App.settings d) App.default_settings
  && forallb obj_safe (App.expenses d)
  && forallb obj_safe (App.guests d)
  && forallb obj_safe (App.tasks d).

Definition WeddingApp_representable (d : WeddingApp.document) : bool :=
  obj_safe (WeddingApp.settings d)
  && forallb obj_safe (WeddingApp.expenses d)
  && forallb obj_safe (WeddingApp.guests d).

(** ** HTML escaping *)

(** The double quote. *)
Definition quote : ascii := ascii_of_nat 34.

(** The characters that must not occur in escaped text. *)
Definition forbidden : list ascii := ["<"; ">"; quote; "'"]%char.

(** The entities an ampersand may start in escaped text. *)
Definition entities : list string := ["&amp;"; "&lt;"; "&gt;"; "&quot;"; "&#039;"].

(** No forbidden character occurs in [out], and wherever an ampersand
    occurs one of the five entities starts. *)
Definition well_escaped (out : string) : Prop :=
  ∀ (pre post : string) (c : ascii), out = pre +:+ String c post →
    (c ∉ forbidden)
    ∧ (c = "&"%char → ∃ e rest, e ∈ entities ∧ String c post = e +:+ rest).

(** A character the helper leaves as it is. *)
Definition plain (c : ascii) : bool :=
  match entity c with Some _ => false | None => true end.

(** ** Inputs of the examples *)

(** The guest list of the specification: 2 confirmed, 1 pending,
    3 declined. *)
Definition guest (count : Z) (status : string) : obj :=
  <["count" := VNum (of_Z count)]> (<["status" := VStr status]> ∅).

(** A guest record without a party size. *)
Definition guest_without_count : obj := <["name" := VStr "Dana"]> ∅.

(** A storage that holds nothing yet and accepts writes. *)
Definition open_storage : storage := {| item := None; writable := true |}.

(** The settings form with a budget of 0, and the expense form of a hall
    of which 20000 is paid. *)
Definition zero_budget_form : WeddingApp.settings_form :=
  {| WeddingApp.sBudget := "0"; WeddingApp.sGroom := "Dan";
     WeddingApp.sBride := "Noa"; WeddingApp.sDate := "2026-06-15" |}.

Definition paid_hall_form : WeddingApp.expense_form :=
  {| WeddingApp.exTitle := "hall"; WeddingApp.exCost := "50000";
     WeddingApp.exPaid := "20000" |}.

(** The legacy planner after the user has set the budget to 0, and after
    the paid hall has been added as well; the optimised planner after the
    same two steps. *)
Definition legacy_zero_budget : Legacy.state :=
  Legacy.openSettingsModal_save zero_budget_form (Legacy.boot open_storage).

Definition legacy_zero_budget_paid : Legacy.state :=
  Legacy.openExpenseModal_save paid_hall_form legacy_zero_budget.

Definition wedding_zero_budget : WeddingApp.state :=
  WeddingApp.openSettingsModal_save zero_budget_form (WeddingApp.boot open_storage).

Definition wedding_zero_budget_paid : WeddingApp.state :=
  WeddingApp.openExpenseModal_save paid_hall_form wedding_zero_budget.

(** Two expenses, and a planner that holds them. *)
Definition hall : obj :=
  <["title" := VStr "hall"]> (<["cost" := VNum (of_Z 50000)]> ∅).

Definition band : obj :=
  <["title" := VStr "band"]> (<["cost" := VNum (of_Z 9000)]> ∅).

Definition planner_with_two : App.state :=
  App.set_data (App.set_expenses [hall; band] App.defaults) (App.boot open_storage).

Definition legacy_with_two : Legacy.state :=
  Legacy.set_data (WeddingApp.set_expenses [hall; band] WeddingApp.initial)
                  (Legacy.boot open_storage).

Definition wedding_with_two : WeddingApp.state :=
  WeddingApp.set_data (WeddingApp.set_expenses [hall; band] WeddingApp.initial)
                      (WeddingApp.boot open_storage).

(** A planner set up through the onboarding step, to which a hall and a
    party of two are then added. *)
Definition a_clock : App.clock :=
  {| App.Date_now := of_Z 1700000000000;
     App.toISOString := "2023-11-14T22:13:20.000Z" |}.

Definition planner_onboarded : App.state :=
  App.finishOnboarding
    {| App.obGroom := "Dan"; App.obBride := "Noa"; App.obDate := "2026-06-15";
       App.obBudget := "100000"; App.obGuests := "250" |}
    a_clock (App.load (App.boot open_storage)).

Definition planner_in_use : App.state :=
  App.openGuestModal_save
    {| App.mGName := "Dana"; App.mGSide := "משותף"; App.mGCount := "2";
       App.mGStatus := "מגיע"; App.mGGift := EmptyString |}
    a_clock
    (App.openExpenseModal_save
       {| App.mExpTitle := "hall"; App.mExpCat := "אולם"; App.mExpCost := "50000";
          App.mExpPaid := "20000"; App.mExpNote := EmptyString |}
       a_clock planner_onboarded).

(** The guest form with the name left empty. *)
Definition nameless_guest : WeddingApp.guest_form :=
  {| WeddingApp.gName := EmptyString; WeddingApp.gSide := "חתן";
     WeddingApp.gCount := "1"; WeddingApp.gStatus := "טרם";
     WeddingApp.gGift := EmptyString |}.

(** The settings form with the budget left empty. *)
Definition empty_budget : App.settings_form :=
  {| App.mSGroom := "Dan"; App.mSBride := "Noa"; App.mSDate := "2026-06-15";
     App.mSBudget := EmptyString |}.

(* ===================================================================== *)
(** * Facts about numbers                                                 *)
(* ===================================================================== *)

Section NumFacts.

Lemma num_add_comm a b : num_add a b = num_add b a.
Proof. destruct a, b; simpl; try reflexivity. f_equal. ring. Qed.

Lemma num_add_assoc a b c : num_add a (num_add b c) = num_add (num_add a b) c.
Proof. destruct a, b, c; simpl; try reflexivity. f_equal. ring. Qed.

Lemma num_add_0_r a : num_add a (Fin 0) = a.
Proof. destruct a; simpl; try reflexivity. f_equal. ring. Qed.

Lemma num_add_0_l a : num_add (Fin 0) a = a.
Proof. rewrite num_add_comm. apply num_add_0_r. Qed.

(** Two finite numbers are equal when their fractions are. *)
Lemma Fin_eq (p q : Qc) : Qeq_bool p q = true → Fin p = Fin q.
Proof. intros H. f_equal. apply Qc_is_canon. by apply Qeq_bool_iff. Qed.

Lemma Fin_neq (p q : Qc) : Qeq_bool p q = false → Fin p ≠ Fin q.
Proof.
  intros H E. injection E as ->.
  assert (Qeq_bool q q = true) by (apply Qeq_bool_iff; reflexivity).
  congruence.
Qed.

Lemma num_or_falsy n d : num_truthy n = false → num_or n d = d.
Proof. unfold num_or. by intros ->. Qed.

Lemma Qc_ltb_lt (a b : Qc) : Qc_ltb a b = true ↔ (a < b)%Qc.
Proof.
  unfold Qc_ltb. rewrite negb_true_iff. split.
  - intros H. apply Qnot_le_lt. intros Hle. apply Qle_bool_iff in Hle. congruence.
  - intros H. destruct (Qle_bool b a) eqn:E; [|done].
    apply Qle_bool_iff in E. by apply Qlt_not_le in H.
Qed.

Lemma Qc_ltb_ge (a b : Qc) : Qc_ltb a b = false ↔ (b <= a)%Qc.
Proof.
  unfold Qc_ltb. rewrite negb_false_iff. apply Qle_bool_iff.
Qed.

Lemma Qc_is0_true (a : Qc) : Qc_is0 a = true ↔ a = 0%Qc.
Proof.
  unfold Qc_is0. rewrite Qeq_bool_iff. split.
  - intros H. apply Qc_is_canon. exact H.
  - by intros ->.
Qed.

Lemma Qc_is0_false (a : Qc) : Qc_is0 a = false ↔ a ≠ 0%Qc.
Proof.
  rewrite <- Qc_is0_true. destruct (Qc_is0 a); split; congruence.
Qed.

Lemma Qc_of_Z_lt a b : (Qc_of_Z a < Qc_of_Z b)%Qc ↔ (a < b)%Z.
Proof. unfold Qclt. simpl. rewrite <- Zlt_Qlt. done. Qed.

Lemma Qc_of_Z_le a b : (Qc_of_Z a <= Qc_of_Z b)%Qc ↔ (a <= b)%Z.
Proof. unfold Qcle. simpl. rewrite <- Zle_Qle. done. Qed.

Lemma num_lt_of_Z a b : num_lt (of_Z a) (of_Z b) = (a <? b)%Z.
Proof.
  unfold of_Z; simpl. destruct (Z.ltb_spec a b) as [H|H].
  - by apply Qc_ltb_lt, Qc_of_Z_lt.
  - by apply Qc_ltb_ge, Qc_of_Z_le.
Qed.

Lemma Fin_0 : Fin 0 = of_Z 0.
Proof. by apply Fin_eq. Qed.

Lemma Math_min_of_Z a b : Math_min (of_Z a) (of_Z b) = of_Z (Z.min a b).
Proof.
  unfold Math_min. change (of_Z a) with (Fin (Qc_of_Z a)) at 1.
  change (of_Z b) with (Fin (Qc_of_Z b)) at 1. cbv iota.
  change (num_lt (Fin (Qc_of_Z b)) (Fin (Qc_of_Z a))) with (num_lt (of_Z b) (of_Z a)).
  rewrite num_lt_of_Z. destruct (Z.ltb_spec b a); f_equal; lia.
Qed.

Lemma Math_max_0_of_Z k : (0 <= k)%Z → Math_max (Fin 0) (of_Z k) = of_Z k.
Proof.
  intros Hk. rewrite Fin_0. unfold Math_max.
  change (of_Z 0) with (Fin (Qc_of_Z 0)) at 1.
  change (of_Z k) with (Fin (Qc_of_Z k)) at 1. cbv iota.
  change (num_lt (Fin (Qc_of_Z 0)) (Fin (Qc_of_Z k))) with (num_lt (of_Z 0) (of_Z k)).
  rewrite num_lt_of_Z. destruct (Z.ltb_spec 0 k); [done|]. f_equal. lia.
Qed.

End NumFacts.

Arguments num_add : simpl never.
Arguments num_sub : simpl never.
Arguments num_mul : simpl never.
Arguments num_div : simpl never.

(** Closes a goal between two closed numbers, or two closed structures
    holding numbers, by evaluation. *)
Ltac num_eval :=
  vm_compute;
  repeat match goal with
    | |- Fin _ = Fin _ => apply Fin_eq; vm_compute; reflexivity
    | |- Fin _ ≠ Fin _ => apply Fin_neq; vm_compute; reflexivity
    | |- _ ∧ _ => split
    | |- _ => reflexivity
    | |- _ => discriminate
    | |- _ => f_equal
    end.

(* ===================================================================== *)
(** * The aggregation engine                                              *)
(* ===================================================================== *)

Section Aggregation.

Lemma sum_num_app (l1 l2 : list num) : sum_num (l1 ++ l2)%list = num_add (sum_num l1) (sum_num l2).
Proof.
  induction l1 as [|x l1 IH]; simpl.
  - by rewrite num_add_0_l.
  - by rewrite IH, num_add_assoc.
Qed.

(** A left-to-right loop that adds one term for each element computes the
    sum of the terms. *)
Lemma fold_left_add {A} (f : A → num) (l : list A) (acc : num) :
  fold_left (λ a x, num_add a (f x)) l acc = num_add acc (sum_num (f <$> l)).
Proof.
  revert acc. induction l as [|x l IH]; intros acc; simpl.
  - by rewrite num_add_0_r.
  - by rewrite IH, num_add_assoc.
Qed.

Lemma missing_is_NaN (o : obj) k : missing_or_non_numeric o k → Number (get o k) = NaN.
Proof. intros [H|H]; [|done]. unfold get. by rewrite H. Qed.

(** A term [n] somewhere in a sum adds [n] to the sum of the others. *)
Lemma sum_num_extra {A} (f : A → num) l1 x l2 n :
  f x = n → sum_num (f <$> (l1 ++ x :: l2)%list) = num_add (sum_num (f <$> (l1 ++ l2)%list)) n.
Proof.
  intros Hx. rewrite !fmap_app, !sum_num_app. simpl. rewrite Hx.
  rewrite <- !num_add_assoc. f_equal. apply num_add_comm.
Qed.

Lemma term_missing k d o : missing_or_non_numeric o k → term k d o = d.
Proof. intros H. unfold term. by rewrite (missing_is_NaN _ _ H). Qed.

(** *** App *)

Lemma App_expense_fold l a b :
  fold_left App.expense_step l (a, b)
  = (num_add a (sum_num (term "cost" (Fin 0) <$> l)),
     num_add b (sum_num (term "paid" (Fin 0) <$> l))).
Proof.
  revert a b. induction l as [|e l IH]; intros a b; simpl.
  - by rewrite !num_add_0_r.
  - unfold App.expense_step at 2. simpl. rewrite IH.
    by rewrite <- !num_add_assoc.
Qed.

Lemma App_totalCost d :
  App.totalCost (App.aggregate d) = sum_num (term "cost" (Fin 0) <$> App.expenses d).
Proof.
  unfold App.aggregate. rewrite App_expense_fold. simpl. apply num_add_0_l.
Qed.

Lemma App_totalPaid d :
  App.totalPaid (App.aggregate d) = sum_num (term "paid" (Fin 0) <$> App.expenses d).
Proof.
  unfold App.aggregate. rewrite App_expense_fold. simpl. apply num_add_0_l.
Qed.

Lemma App_guest_fold gs acc :
  let r := fold_left App.guest_step gs acc in
  App.a_totalGuests r = num_add (App.a_totalGuests acc) (sum_num (party_size <$> gs))
  ∧ App.a_gifts r = num_add (App.a_gifts acc) (sum_num (term "gift" (Fin 0) <$> gs))
  ∧ App.a_confirmed r = num_add (App.a_confirmed acc) (bucket_size Confirmed gs)
  ∧ App.a_declined r = num_add (App.a_declined acc) (bucket_size Declined gs)
  ∧ App.a_pending r = num_add (App.a_pending acc) (bucket_size Pending gs).
Proof.
  revert acc. induction gs as [|g gs IH]; intros acc.
  - simpl. unfold bucket_size. simpl. by rewrite !num_add_0_r.
  - cbn [fold_left]. destruct (IH (App.guest_step acc g)) as (Ht & Hg & Hc & Hd & Hp).
    cbv zeta. rewrite Ht, Hg, Hc, Hd, Hp. clear IH Ht Hg Hc Hd Hp.
    unfold bucket_size, in_bucket, bucket_of, App.guest_step. cbn [List.filter].
    cbn [App.a_totalGuests App.a_gifts App.a_confirmed App.a_declined App.a_pending].
    fold (party_size g). fold (term "gift" (Fin 0) g).
    destruct (strict_eq (get g "status") (VStr "מגיע"));
      [|destruct (strict_eq (get g "status") (VStr "לא מגיע"))];
      cbn [fmap list_fmap sum_num foldr]; by rewrite <- ?num_add_assoc.
Qed.

Lemma App_guest_totals d :
  let c := App.aggregate d in
  App.totalGuests c = sum_num (party_size <$> App.guests d)
  ∧ App.gifts c = sum_num (term "gift" (Fin 0) <$> App.guests d)
  ∧ App.confirmed c = bucket_size Confirmed (App.guests d)
  ∧ App.declined c = bucket_size Declined (App.guests d)
  ∧ App.pending c = bucket_size Pending (App.guests d).
Proof.
  unfold App.aggregate. rewrite App_expense_fold.
  destruct (App_guest_fold (App.guests d) App.guest_acc0) as (Ht & Hg & Hc & Hd & Hp).
  cbv zeta in *. cbn [App.totalGuests App.gifts App.confirmed App.declined App.pending].
  rewrite Ht, Hg, Hc, Hd, Hp. simpl. by rewrite !num_add_0_l.
Qed.

Lemma sum_num_cons x l : sum_num (x :: l) = num_add x (sum_num l).
Proof. reflexivity. Qed.

Lemma bucket_size_cons b g gs :
  bucket_size b (g :: gs)
  = if in_bucket b g then num_add (party_size g) (bucket_size b gs)
    else bucket_size b gs.
Proof. unfold bucket_size. cbn [List.filter]. by destruct (in_bucket b g). Qed.

(** The three buckets split the guests. *)
Lemma buckets_split gs :
  num_add (num_add (bucket_size Confirmed gs) (bucket_size Pending gs))
          (bucket_size Declined gs)
  = sum_num (party_size <$> gs).
Proof.
  induction gs as [|g gs IH]; [reflexivity|].
  rewrite !bucket_size_cons, fmap_cons, sum_num_cons, <- IH. clear IH.
  generalize (bucket_size Confirmed gs) as a.
  generalize (bucket_size Pending gs) as b.
  generalize (bucket_size Declined gs) as c.
  intros c b a. generalize (party_size g) as p. intros p.
  unfold in_bucket. destruct (bucket_of g).
  - by rewrite <- !num_add_assoc.
  - rewrite (num_add_comm p c), num_add_assoc. apply num_add_comm.
  - rewrite (num_add_assoc a p b), (num_add_comm a p).
    by rewrite <- !num_add_assoc.
Qed.

(** *** WeddingApp *)

Lemma WeddingApp_guest_fold l a b :
  fold_left WeddingApp.guest_step l (a, b)
  = (num_add a (sum_num (term "total_people" (Fin 1) <$> l)),
     num_add b (sum_num (term "gift" (Fin 0) <$> l))).
Proof.
  revert a b. induction l as [|e l IH]; intros a b; simpl.
  - by rewrite !num_add_0_r.
  - unfold WeddingApp.guest_step at 2. simpl. rewrite IH.
    by rewrite <- !num_add_assoc.
Qed.

Lemma WeddingApp_totals d :
  let t := WeddingApp.aggregate d in
  WeddingApp.totalSpent t = sum_num (term "paid_amount" (Fin 0) <$> WeddingApp.expenses d)
  ∧ WeddingApp.totalGuests t
    = sum_num (term "total_people" (Fin 1) <$> WeddingApp.guests d)
  ∧ WeddingApp.totalGifts t = sum_num (term "gift" (Fin 0) <$> WeddingApp.guests d).
Proof.
  unfold WeddingApp.aggregate. rewrite WeddingApp_guest_fold. simpl.
  rewrite !num_add_0_l. repeat split.
  unfold WeddingApp.spent_step.
  rewrite (fold_left_add (term "paid_amount" (Fin 0))). apply num_add_0_l.
Qed.

End Aggregation.

Section Cache.

(** [compute] returns what [aggregate] builds whenever the cache is empty,
    and every [save] empties it: the snapshot read after a mutation is the
    one of the document as mutated. *)
Lemma compute_after_save st :
  App._cache (App.save st) = None
  ∧ (App.compute (App.save st)).1 = App.aggregate (App.data st).
Proof.
  unfold App.save, App.scheduleRender, App.requestAnimationFrame, App.toast.
  destruct st as [d c r q s l]. cbn [App.data App.store].
  by destruct (setItem _ _); destruct r.
Qed.

Lemma computeTotals_after_saveData st :
  WeddingApp._cachedTotals (WeddingApp.saveData st) = None
  ∧ (WeddingApp._computeTotals (WeddingApp.saveData st)).1
    = WeddingApp.aggregate (WeddingApp.data st).
Proof.
  unfold WeddingApp.saveData, WeddingApp._scheduleRender,
    WeddingApp.requestAnimationFrame.
  destruct st as [d c r q s l]. cbn [WeddingApp.data WeddingApp.store].
  by destruct (setItem _ _); destruct r.
Qed.

(** The handlers and the frames keep the cache coherent. *)
Lemma App_coherent_emit e st : App_coherent st → App_coherent (App.emit e st).
Proof. done. Qed.

Lemma App_coherent_save st : App_coherent (App.save st).
Proof. intros c. by rewrite (proj1 (compute_after_save st)). Qed.

Lemma App_coherent_renderAll st : App_coherent st → App_coherent (App.renderAll st).
Proof.
  intros H c. unfold App.renderAll, App.compute.
  destruct (App._cache st) as [c0|] eqn:E; simpl.
  - rewrite E. intros [= <-]. by apply H.
  - by intros [= <-].
Qed.

Lemma App_coherent_frame st : App_coherent st → App_coherent (App.animation_frame st).
Proof.
  unfold App.animation_frame, App.animation_frame_with.
  assert (H0 : App_coherent st → App_coherent (App.set_frame_queue [] st)) by done.
  intros H. apply H0 in H. revert H.
  generalize (App.set_frame_queue [] st) as s0.
  induction (App.frame_queue st) as [|cb q IH]; intros s0 H; [done|].
  simpl. apply IH. destruct cb; [|done].
  unfold App.run_callback, App.render_callback, id.
  by apply App_coherent_renderAll.
Qed.

Lemma App_step_coherent st st' : App_step st st' → App_coherent st → App_coherent st'.
Proof.
  intros Hstep H. destruct Hstep.
  - unfold App.openExpenseModal_save.
    repeat (destruct (negb _); [by apply App_coherent_emit|]).
    repeat apply App_coherent_emit. apply App_coherent_save.
  - unfold App.deleteExpense. destruct (negb c); [done|].
    repeat apply App_coherent_emit. apply App_coherent_save.
  - unfold App.openGuestModal_save.
    repeat (destruct (negb _); [by apply App_coherent_emit|]).
    repeat apply App_coherent_emit. apply App_coherent_save.
  - unfold App.deleteGuest. destruct (negb c); [done|].
    repeat apply App_coherent_emit. apply App_coherent_save.
  - unfold App.openTaskModal_save.
    repeat (destruct (negb _); [by apply App_coherent_emit|]).
    repeat apply App_coherent_emit. apply App_coherent_save.
  - unfold App.toggleTask in *.
    destruct (_ || _); [by simplify_eq|].
    destruct (App.array_index i) as [k|]; [|done].
    destruct (_ !! k) as [t|]; [|done]. simplify_eq.
    destruct (truthy _); [apply App_coherent_emit|]; apply App_coherent_save.
  - unfold App.deleteTask. destruct (negb c); [done|].
    repeat apply App_coherent_emit. apply App_coherent_save.
  - unfold App.openSettings_save.
    repeat apply App_coherent_emit. apply App_coherent_save.
  - unfold App.finishOnboarding, App.showApp.
    repeat apply App_coherent_emit. apply App_coherent_renderAll, App_coherent_save.
  - by apply App_coherent_frame.
Qed.

(** In every state the application reaches, [compute] returns the
    aggregation of the document as it is. *)
Lemma App_snapshot_coherent s st :
  App_reachable s st → (App.compute st).1 = App.aggregate (App.data st).
Proof.
  intros Hr.
  assert (H : App_coherent st).
  { unfold App_reachable in Hr.
    revert st Hr. apply rtc_ind_r.
    - intros c. unfold App.load, App.boot. simpl.
      by destruct (item s) as [[| |p]|].
    - intros y z _ Hyz IH. by apply (App_step_coherent y). }
  unfold App.compute. destruct (App._cache st) as [c|] eqn:E; [|done].
  simpl. by apply H.
Qed.

Lemma WeddingApp_coherent_emit e st :
  WeddingApp_coherent st → WeddingApp_coherent (WeddingApp.emit e st).
Proof. done. Qed.

Lemma WeddingApp_coherent_saveData st : WeddingApp_coherent (WeddingApp.saveData st).
Proof. intros c. by rewrite (proj1 (computeTotals_after_saveData st)). Qed.

Lemma WeddingApp_coherent_renderDashboard st :
  WeddingApp_coherent st → WeddingApp_coherent (WeddingApp.renderDashboard st).
Proof.
  intros H c. unfold WeddingApp.renderDashboard, WeddingApp._computeTotals.
  destruct (WeddingApp._cachedTotals st) as [c0|] eqn:E; simpl.
  - rewrite E. intros [= <-]. by apply H.
  - by intros [= <-].
Qed.

Lemma WeddingApp_coherent_frame st :
  WeddingApp_coherent st → WeddingApp_coherent (WeddingApp.animation_frame st).
Proof.
  unfold WeddingApp.animation_frame, WeddingApp.animation_frame_with.
  assert (H0 : WeddingApp_coherent st →
               WeddingApp_coherent (WeddingApp.set_frame_queue [] st)) by done.
  intros H. apply H0 in H. revert H.
  generalize (WeddingApp.set_frame_queue [] st) as s0.
  induction (WeddingApp.frame_queue st) as [|cb q IH]; intros s0 H; [done|].
  simpl. apply IH. destruct cb; [|done].
  unfold WeddingApp.run_callback, WeddingApp.render_callback, id.
  by apply WeddingApp_coherent_renderDashboard.
Qed.

Lemma WeddingApp_step_coherent st st' :
  WeddingApp_step st st' → WeddingApp_coherent st → WeddingApp_coherent st'.
Proof.
  intros Hstep H. destruct Hstep.
  - unfold WeddingApp.openExpenseModal_save.
    destruct (_ || _); [by apply WeddingApp_coherent_emit|].
    repeat apply WeddingApp_coherent_emit. apply WeddingApp_coherent_saveData.
  - unfold WeddingApp.openGuestModal_save.
    destruct (negb _); [by apply WeddingApp_coherent_emit|].
    repeat apply WeddingApp_coherent_emit. apply WeddingApp_coherent_saveData.
  - unfold WeddingApp.openSettingsModal_save.
    repeat apply WeddingApp_coherent_emit. apply WeddingApp_coherent_saveData.
  - unfold WeddingApp.deleteItem. destruct (negb c); [done|].
    destruct ty; apply WeddingApp_coherent_emit, WeddingApp_coherent_saveData.
  - by apply WeddingApp_coherent_frame.
Qed.

Lemma WeddingApp_snapshot_coherent s st :
  WeddingApp_reachable s st →
  (WeddingApp._computeTotals st).1 = WeddingApp.aggregate (WeddingApp.data st).
Proof.
  intros Hr.
  assert (H : WeddingApp_coherent st).
  { unfold WeddingApp_reachable in Hr. revert st Hr. apply rtc_ind_r.
    - apply WeddingApp_coherent_renderDashboard.
      unfold WeddingApp.loadData, WeddingApp.boot. simpl.
      destruct (item s) as [[| |p]|]; try done; apply WeddingApp_coherent_saveData.
    - intros y z _ Hyz IH. by apply (WeddingApp_step_coherent y). }
  unfold WeddingApp._computeTotals.
  destruct (WeddingApp._cachedTotals st) as [c|] eqn:E; [|done].
  simpl. by apply H.
Qed.

End Cache.

(** ** The guest counts *)


Example guest_counts_example :
  let c := App.aggregate
             (App.set_guests [guest 2 "מגיע"; guest 1 "טרם אישר"; guest 3 "לא מגיע"]
                             App.defaults) in
  App.totalGuests c = of_Z 6 ∧ App.confirmed c = of_Z 2
  ∧ App.pending c = of_Z 1 ∧ App.declined c = of_Z 3.
Proof. num_eval. Qed.

(** ** Missing and non-numeric fields *)




(** ** Progress and budget *)

Lemma has_any_ltb {A} (l : list A) : (if 0 <? length l then 1 else 0) = has_any l.
Proof. by destruct l. Qed.

Lemma of_nat_nonzero n : n ≠ 0 → Qc_is0 (Qc_of_Z (Z.of_nat n)) = false.
Proof.
  intros Hn. apply Qc_is0_false. intros H.
  apply (f_equal this) in H. simpl in H. injection H. lia.
Qed.

Lemma Qfloor_nonneg (x : Qc) : (0 <= x)%Qc → (0 <= Qfloor x)%Z.
Proof.
  intros H. rewrite <- (Qfloor_Z 0). apply Qfloor_resp_le. exact H.
Qed.

Lemma Qc_div_nonneg (x y : Qc) : (0 <= x)%Qc → (0 < y)%Qc → (0 <= x / y)%Qc.
Proof.
  intros Hx Hy. unfold Qcdiv. apply Qcmult_nonneg_nonneg; [done|].
  by apply Qclt_le_weak, Qcinv_pos.
Qed.

Lemma Qc_half_nonneg : (0 <= Q2Qc (1 # 2))%Qc.
Proof. by vm_compute. Qed.

Lemma Math_round_nonneg (x : Qc) :
  (0 <= x)%Qc → ∃ z, (0 <= z)%Z ∧ Math_round (Fin x) = of_Z z.
Proof.
  intros Hx. eexists; split; [|reflexivity].
  apply Qfloor_nonneg, Qcplus_nonneg_nonneg; [done|apply Qc_half_nonneg].
Qed.

Lemma clamp_percent z :
  (0 <= z)%Z → clamp (of_Z z) (Fin 0) (of_Z 100) = Math_min (of_Z z) (of_Z 100).
Proof.
  intros Hz. unfold clamp. rewrite Math_min_of_Z. apply Math_max_0_of_Z. lia.
Qed.

Lemma of_Z_Fin z : of_Z z = Fin (Qc_of_Z z).
Proof. reflexivity. Qed.

Lemma num_mul_Fin x y : num_mul (Fin x) (Fin y) = Fin (x * y)%Qc.
Proof. reflexivity. Qed.

Lemma num_div_Fin x y : Qc_is0 y = false → num_div (Fin x) (Fin y) = Fin (x / y)%Qc.
Proof. intros H. unfold num_div. by rewrite H. Qed.


Lemma nonneg_Fin q : nonneg (Fin q) = true ↔ (0 <= q)%Qc.
Proof. simpl. apply Qle_bool_iff. Qed.

Lemma nonneg_add a b : nonneg a = true → nonneg b = true → nonneg (num_add a b) = true.
Proof.
  destruct a as [| | |x], b as [| | |y]; try done.
  rewrite !nonneg_Fin. change (num_add (Fin x) (Fin y)) with (Fin (x + y)%Qc).
  rewrite nonneg_Fin. apply Qcplus_nonneg_nonneg.
Qed.

Lemma nonneg_sum (l : list num) :
  Forall (λ n, nonneg n = true) l → nonneg (sum_num l) = true.
Proof.
  induction 1 as [|n l Hn _ IH]; [done|].
  rewrite sum_num_cons. by apply nonneg_add.
Qed.

Lemma Qc_0_le_1 : (0 <= 1)%Qc.
Proof. by vm_compute. Qed.

Lemma Qc_div_nonpos (x y : Qc) : (0 <= x)%Qc → (y < 0)%Qc → (x / y <= 0)%Qc.
Proof.
  intros Hx Hy.
  assert (Hy' : (0 < - y)%Qc).
  { apply Qclt_minus_iff in Hy. by rewrite Qcplus_0_l in Hy. }
  assert (E : (x / y = - (x / - y))%Qc).
  { field. split.
    - intros H. rewrite H in Hy'. by vm_compute in Hy'.
    - intros ->. by vm_compute in Hy. }
  rewrite E. apply Qcle_minus_iff. rewrite Qcplus_0_l, Qcopp_involutive.
  by apply Qc_div_nonneg.
Qed.

(** The guarded quotient of the two engines is the clamped quotient,
    for a finite budget and a total paid that is not negative. *)
Lemma guarded_fraction (b tp : num) :
  is_finite b = true → nonneg tp = true →
  (if num_gt b (Fin 0) then Math_min (num_div tp b) (Fin 1) else Fin 0)
  = paid_fraction_spec b tp.
Proof.
  destruct b as [| | |y]; try done. intros _ Htp.
  unfold paid_fraction_spec, num_gt, clamp. cbn [is_zero num_lt].
  destruct (Qc_is0 y) eqn:E0.
  - apply Qc_is0_true in E0. subst y. by vm_compute.
  - destruct (Qc_ltb 0 y) eqn:Ey.
    + apply Qc_ltb_lt in Ey.
      destruct tp as [| | |x]; try done.
      * unfold num_div.
        replace (Qc_ltb y 0) with false; [by vm_compute|].
        symmetry. apply Qc_ltb_ge. by apply Qclt_le_weak.
      * apply nonneg_Fin in Htp. rewrite (num_div_Fin _ _ E0).
        assert (Hq : (0 <= x / y)%Qc) by (by apply Qc_div_nonneg).
        generalize dependent (x / y)%Qc. intros q Hq.
        unfold Math_min. cbn [num_lt].
        destruct (Qc_ltb 1 q) eqn:E1; unfold Math_max; cbn [num_lt].
        -- by vm_compute.
        -- destruct (Qc_ltb 0 q) eqn:E2; [done|].
           apply Qc_ltb_ge in E2. f_equal. by apply Qcle_antisym.
    + apply Qc_ltb_ge in Ey.
      assert (Hy : (y < 0)%Qc).
      { apply Qcle_lt_or_eq in Ey as [?| ->]; [done|]. by vm_compute in E0. }
      destruct tp as [| | |x]; try done.
      * unfold num_div.
        replace (Qc_ltb y 0) with true by (symmetry; by apply Qc_ltb_lt).
        by vm_compute.
      * apply nonneg_Fin in Htp. rewrite (num_div_Fin _ _ E0).
        assert (Hq : (x / y <= 0)%Qc) by (by apply Qc_div_nonpos).
        generalize dependent (x / y)%Qc. intros q Hq.
        unfold Math_min. cbn [num_lt].
        replace (Qc_ltb 1 q) with false.
        2:{ symmetry. apply Qc_ltb_ge. etrans; [done|]. apply Qc_0_le_1. }
        unfold Math_max. cbn [num_lt].
        replace (Qc_ltb 0 q) with false; [done|].
        symmetry. by apply Qc_ltb_ge.
Qed.

(** After onboarding the ten default tasks are open; with one expense and
    one guest the progress is 2 of 12, which rounds to 17 per cent. *)
Example progress_example :
  let c := (App.compute planner_in_use).1 in
  App.totalTasks c = 10 ∧ App.doneTasks c = 0
  ∧ App.weddingProgress c = of_Z 17
  ∧ App.totalGuests c = of_Z 2 ∧ App.confirmed c = of_Z 2
  ∧ App.budgetLeft c = of_Z 80000
  ∧ App.budgetPercent c = Fin (Q2Qc (1 # 5)).
Proof. num_eval. Qed.

(** The two engines guard the division: the budget is [settings.budget]
    (or [total_budget]) as a number, what remains is the budget less the
    total paid, and the paid fraction is 0 for a budget of 0 and the
    clamped quotient for every finite budget, the paid amounts not being
    negative. *)
Lemma App_budget_snapshot (d : App.document) :
  let c := App.aggregate d in
  let budget := Number (get (App.settings d) "budget") in
  App.budgetLeft c = num_sub budget (App.totalPaid c)
  ∧ (num_truthy budget = false → App.budgetPercent c = Fin 0)
  ∧ (is_finite budget = true →
     Forall (λ e, nonneg (term "paid" (Fin 0) e) = true) (App.expenses d) →
     App.budgetPercent c = paid_fraction_spec budget (App.totalPaid c)).
Proof.
  cbv zeta. split; [|split].
  - unfold App.aggregate. by destruct (fold_left App.expense_step _ _).
  - intros Hb. unfold App.aggregate. destruct (fold_left App.expense_step _ _).
    cbn [App.budgetPercent]. unfold num_gt.
    destruct (Number _) as [| | |q]; try done. cbn [num_lt].
    cbn [num_truthy] in Hb. apply negb_false_iff, Qc_is0_true in Hb. by subst q.
  - intros Hb Hp. rewrite App_totalPaid.
    rewrite <- (guarded_fraction _ _ Hb).
    + unfold App.aggregate. rewrite App_expense_fold. cbn [App.budgetPercent].
      by rewrite num_add_0_l.
    + apply nonneg_sum. by apply Forall_fmap.
Qed.

Lemma WeddingApp_budget_snapshot (d : WeddingApp.document) :
  let t := WeddingApp.aggregate d in
  let budget := Number (get (WeddingApp.settings d) "total_budget") in
  WeddingApp.remaining t = num_sub budget (WeddingApp.totalSpent t)
  ∧ (num_truthy budget = false → WeddingApp.percent d t = Fin 0)
  ∧ (is_finite budget = true →
     Forall (λ e, nonneg (term "paid_amount" (Fin 0) e) = true) (WeddingApp.expenses d) →
     WeddingApp.percent d t = paid_fraction_spec budget (WeddingApp.totalSpent t)).
Proof.
  cbv zeta. split; [|split].
  - unfold WeddingApp.aggregate. by destruct (fold_left WeddingApp.guest_step _ _).
  - intros Hb. unfold WeddingApp.percent, num_gt.
    destruct (Number _) as [| | |q]; try done. cbn [num_lt].
    cbn [num_truthy] in Hb. apply negb_false_iff, Qc_is0_true in Hb. by subst q.
  - intros Hb Hp. unfold WeddingApp.percent. rewrite (guarded_fraction _ _ Hb); [done|].
    rewrite (proj1 (WeddingApp_totals d)). apply nonneg_sum. by apply Forall_fmap.
Qed.

(** The budget example of the specification. *)
Example budget_example :
  let e : obj := <["cost" := VNum (of_Z 50000)]> (<["paid" := VNum (of_Z 20000)]> ∅) in
  let d := App.set_settings (<["budget" := VNum (of_Z 100000)]> App.default_settings)
             (App.set_expenses [e] App.defaults) in
  let c := App.aggregate d in
  App.totalCost c = of_Z 50000 ∧ App.totalPaid c = of_Z 20000
  ∧ App.budgetLeft c = of_Z 80000 ∧ App.budgetPercent c = Fin (Q2Qc (1 # 5)).
Proof. num_eval. Qed.

(** C1.  The legacy dashboard divides by the budget without a guard: once
    the user has set the budget to 0, the paid fraction it draws is NaN
    while nothing is paid and infinite (a bar of 100 per cent) when
    something is, where the optimised engine draws 0 after the same
    steps.  What remains is the budget less the total paid in both. *)
Theorem legacy_zero_budget_fraction :
  let d0 := Legacy.data legacy_zero_budget in
  let d1 := Legacy.data legacy_zero_budget_paid in
  let w0 := WeddingApp.data wedding_zero_budget in
  let w1 := WeddingApp.data wedding_zero_budget_paid in
  Legacy.percent (Legacy.draw d0) = NaN
  ∧ Legacy.barWidth (Legacy.draw d0) = NaN
  ∧ Legacy.totalSpent (Legacy.draw d1) = of_Z 20000
  ∧ Legacy.remaining (Legacy.draw d1) = of_Z (-20000)
  ∧ Legacy.percent (Legacy.draw d1) = PInf
  ∧ Legacy.barWidth (Legacy.draw d1) = of_Z 100
  ∧ WeddingApp.percent w0 (WeddingApp.aggregate w0) = Fin 0
  ∧ WeddingApp.remaining (WeddingApp.aggregate w1) = of_Z (-20000)
  ∧ WeddingApp.percent w1 (WeddingApp.aggregate w1) = Fin 0.
Proof. num_eval. Qed.

(* ===================================================================== *)
(** * The mutation API                                                    *)
(* ===================================================================== *)

Section Splice.

Context {A : Type}.
Implicit Types l : list A.

Lemma truncate_of_Z z : truncate (Qc_of_Z z) = z.
Proof.
  unfold truncate. destruct (Qc_ltb _ _).
  - apply Qceiling_Z.
  - apply Qfloor_Z.
Qed.

Lemma splice_start_of_Z len z :
  splice_start len (of_Z z)
  = if (z <? 0)%Z then Z.to_nat (Z.max (Z.of_nat len + z) 0)
    else Z.to_nat (Z.min z (Z.of_nat len)).
Proof. unfold splice_start, of_Z. by rewrite truncate_of_Z. Qed.

Lemma delete_beyond l i : length l ≤ i → delete i l = l.
Proof.
  revert i. induction l as [|x l IH]; intros [|i] Hi; simpl in *; try done; try lia.
  f_equal. apply IH. lia.
Qed.

(** An index in range removes the element at that index and nothing
    else. *)
Lemma splice1_in_range l1 x l2 :
  splice1 (l1 ++ x :: l2) (of_nat (length l1)) = (l1 ++ l2)%list.
Proof.
  unfold splice1, of_nat. rewrite splice_start_of_Z.
  destruct (Z.ltb_spec (Z.of_nat (length l1)) 0); [lia|].
  rewrite length_app. simpl.
  replace (Z.to_nat _) with (length l1) by lia. apply delete_middle.
Qed.

(** An index at or beyond the length removes nothing. *)
Lemma splice1_beyond l z :
  (Z.of_nat (length l) <= z)%Z → splice1 l (of_Z z) = l.
Proof.
  intros Hz. unfold splice1. rewrite splice_start_of_Z.
  destruct (Z.ltb_spec z 0); [lia|]. apply delete_beyond. lia.
Qed.

(** A negative index counts from the end: -1 removes the last element. *)
Lemma splice1_minus_one l x : splice1 (l ++ [x]) (of_Z (-1)) = l.
Proof.
  unfold splice1. rewrite splice_start_of_Z. simpl.
  rewrite length_app. simpl.
  replace (Z.to_nat _) with (length l) by lia.
  rewrite (delete_middle l [] x). apply app_nil_r.
Qed.

(** NaN is taken as index 0. *)
Lemma splice1_NaN l : splice1 l NaN = delete 0 l.
Proof. reflexivity. Qed.

End Splice.

(** Unfolds the handlers down to the fields of the state. *)
Ltac unfold_app :=
  unfold App.toast, App.closeModal, App.startCountdown, App.shakeEl,
    App.showApp, App.renderAll, App.compute, App.save, App.scheduleRender,
    App.requestAnimationFrame in *.

Ltac unfold_wedding :=
  unfold WeddingApp.renderExpenses, WeddingApp.renderGuests,
    WeddingApp.closeModal, WeddingApp.startCountdown, WeddingApp._shakeInput,
    WeddingApp.renderDashboard, WeddingApp._computeTotals, WeddingApp.saveData,
    WeddingApp._scheduleRender, WeddingApp.requestAnimationFrame in *.

Ltac unfold_legacy :=
  unfold Legacy.save_then, Legacy.saveData, Legacy.renderDashboard,
    Legacy.closeModal, Legacy.renderExpenses, Legacy.renderGuests in *.

Section Frames.

(** [save] and the calls that follow it in a handler leave the document
    as the handler made it. *)
Lemma App_emit_data e st : App.data (App.emit e st) = App.data st.
Proof. reflexivity. Qed.

Lemma WeddingApp_emit_data e st : WeddingApp.data (WeddingApp.emit e st) = WeddingApp.data st.
Proof. reflexivity. Qed.

Lemma App_compute_data st : App.data (App.compute st).2 = App.data st.
Proof. unfold App.compute. by destruct (App._cache st). Qed.

Lemma App_save_data st : App.data (App.save st) = App.data st.
Proof.
  unfold_app. destruct (setItem _ _); simpl; by destruct (App._raf st).
Qed.

Lemma WeddingApp_saveData_data st :
  WeddingApp.data (WeddingApp.saveData st) = WeddingApp.data st.
Proof.
  unfold_wedding. destruct (setItem _ _); simpl; by destruct (WeddingApp._renderQueued st).
Qed.

Lemma Legacy_save_then_data rest st :
  (∀ s, Legacy.data (rest s) = Legacy.data s) →
  Legacy.data (Legacy.save_then rest st) = Legacy.data st.
Proof.
  intros Hrest. unfold_legacy. destruct (setItem _ _); [|done]. by rewrite Hrest.
Qed.

End Frames.

(** ** Delete *)

Section Delete.

(** What the delete operations do to the document, in the three variants:
    nothing when the user declines, and otherwise [splice(index, 1)] on
    the one list. *)
Lemma delete_document (confirm : bool) (idx : num) :
  (∀ st, App.data (App.deleteExpense confirm idx st)
         = if confirm
           then App.set_expenses (splice1 (App.expenses (App.data st)) idx) (App.data st)
           else App.data st)
  ∧ (∀ st, App.data (App.deleteGuest confirm idx st)
           = if confirm
             then App.set_guests (splice1 (App.guests (App.data st)) idx) (App.data st)
             else App.data st)
  ∧ (∀ st, App.data (App.deleteTask confirm idx st)
           = if confirm
             then App.set_tasks (splice1 (App.tasks (App.data st)) idx) (App.data st)
             else App.data st)
  ∧ (∀ st, WeddingApp.data (WeddingApp.deleteItem confirm WeddingApp.Expenses idx st)
           = if confirm
             then WeddingApp.set_expenses
                    (splice1 (WeddingApp.expenses (WeddingApp.data st)) idx)
                    (WeddingApp.data st)
             else WeddingApp.data st)
  ∧ (∀ st, WeddingApp.data (WeddingApp.deleteItem confirm WeddingApp.Guests idx st)
           = if confirm
             then WeddingApp.set_guests
                    (splice1 (WeddingApp.guests (WeddingApp.data st)) idx)
                    (WeddingApp.data st)
             else WeddingApp.data st)
  ∧ (∀ st, Legacy.data (Legacy.deleteItem confirm WeddingApp.Expenses idx st)
           = if confirm
             then WeddingApp.set_expenses
                    (splice1 (WeddingApp.expenses (Legacy.data st)) idx)
                    (Legacy.data st)
             else Legacy.data st)
  ∧ (∀ st, Legacy.data (Legacy.deleteItem confirm WeddingApp.Guests idx st)
           = if confirm
             then WeddingApp.set_guests
                    (splice1 (WeddingApp.guests (Legacy.data st)) idx)
                    (Legacy.data st)
             else Legacy.data st).
Proof.
  destruct confirm; repeat split; intros st; try reflexivity;
    unfold App.deleteExpense, App.deleteGuest, App.deleteTask,
      WeddingApp.deleteItem, Legacy.deleteItem; cbn [negb];
    unfold App.toast, WeddingApp.renderExpenses, WeddingApp.renderGuests;
    by rewrite ?App_emit_data, ?WeddingApp_emit_data, ?App_save_data,
         ?WeddingApp_saveData_data, ?Legacy_save_then_data.
Qed.

(** With an index in range the element at that index is removed and
    nothing else changes. *)
Lemma delete_in_range (l1 l2 : list obj) (x : obj) (st : App.state) :
  App.expenses (App.data st) = (l1 ++ x :: l2)%list →
  App.data (App.deleteExpense true (of_nat (length l1)) st)
  = App.set_expenses (l1 ++ l2) (App.data st).
Proof.
  intros H. rewrite (proj1 (delete_document true _)), H.
  by rewrite splice1_in_range.
Qed.

(** With an index at or beyond the length the document does not change. *)
Lemma delete_beyond_range (z : Z) (st : App.state) :
  (Z.of_nat (length (App.expenses (App.data st))) <= z)%Z →
  App.data (App.deleteExpense true (of_Z z) st) = App.data st.
Proof.
  intros H. rewrite (proj1 (delete_document true _)), splice1_beyond by done.
  by destruct (App.data st).
Qed.

(** The sibling [toggleTask] checks the range: outside of it, negative
    indices included, it returns without touching the state. *)
Lemma toggleTask_out_of_range (idx : num) (st : App.state) :
  num_lt idx (Fin 0) = true
  ∨ num_ge idx (of_nat (length (App.tasks (App.data st)))) = true →
  App.toggleTask idx st = Some st.
Proof.
  intros H. unfold App.toggleTask.
  destruct H as [-> | ->]; [done|]. by rewrite orb_true_r.
Qed.

End Delete.


(** ** Add *)

Section Add.

(** The two engines check the required fields first: when the title (or
    name) is blank, or the cost is empty, the handler only highlights the
    input. *)
Lemma App_add_validation (t : App.clock) (st : App.state) :
  (∀ f, trim (App.mExpTitle f) = EmptyString →
        App.openExpenseModal_save f t st = App.shakeEl "mExpTitle" st)
  ∧ (∀ f, trim (App.mExpTitle f) ≠ EmptyString → App.mExpCost f = EmptyString →
          App.openExpenseModal_save f t st = App.shakeEl "mExpCost" st)
  ∧ (∀ f, trim (App.mGName f) = EmptyString →
          App.openGuestModal_save f t st = App.shakeEl "mGName" st)
  ∧ (∀ f, trim (App.mTaskTitle f) = EmptyString →
          App.openTaskModal_save f t st = App.shakeEl "mTaskTitle" st).
Proof.
  repeat split.
  - intros f H. unfold App.openExpenseModal_save. by rewrite H.
  - intros f H1 H2. unfold App.openExpenseModal_save. rewrite H2.
    destruct (trim (App.mExpTitle f)); done.
  - intros f H. unfold App.openGuestModal_save. by rewrite H.
  - intros f H. unfold App.openTaskModal_save. by rewrite H.
Qed.

Lemma WeddingApp_add_validation (st : WeddingApp.state) :
  (∀ f, trim (WeddingApp.exTitle f) = EmptyString →
        WeddingApp.openExpenseModal_save f st = WeddingApp._shakeInput "exTitle" st)
  ∧ (∀ f, trim (WeddingApp.exTitle f) ≠ EmptyString →
          WeddingApp.exCost f = EmptyString →
          WeddingApp.openExpenseModal_save f st = WeddingApp._shakeInput "exCost" st)
  ∧ (∀ f, trim (WeddingApp.gName f) = EmptyString →
          WeddingApp.openGuestModal_save f st = WeddingApp._shakeInput "gName" st).
Proof.
  repeat split.
  - intros f H. unfold WeddingApp.openExpenseModal_save. by rewrite H.
  - intros f H1 H2. unfold WeddingApp.openExpenseModal_save. rewrite H2.
    destruct (trim (WeddingApp.exTitle f)); done.
  - intros f H. unfold WeddingApp.openGuestModal_save. by rewrite H.
Qed.

(** Highlighting an input changes nothing but the log: the document, the
    cache, the scheduler and the storage stay as they were. *)
Lemma shake_changes_nothing id :
  (∀ st, App.data (App.shakeEl id st) = App.data st
         ∧ App._cache (App.shakeEl id st) = App._cache st
         ∧ App.store (App.shakeEl id st) = App.store st
         ∧ App.frame_queue (App.shakeEl id st) = App.frame_queue st
         ∧ App.log (App.shakeEl id st) = (App.log st ++ [Shake id])%list)
  ∧ (∀ st, WeddingApp.data (WeddingApp._shakeInput id st) = WeddingApp.data st
           ∧ WeddingApp._cachedTotals (WeddingApp._shakeInput id st)
             = WeddingApp._cachedTotals st
           ∧ WeddingApp.store (WeddingApp._shakeInput id st) = WeddingApp.store st
           ∧ WeddingApp.frame_queue (WeddingApp._shakeInput id st)
             = WeddingApp.frame_queue st
           ∧ WeddingApp.log (WeddingApp._shakeInput id st)
             = (WeddingApp.log st ++ [Shake id])%list).
Proof. done. Qed.

(** The legacy expense handler checks the title and the cost as well, and
    raises an alert. *)
Lemma legacy_expense_validation (f : WeddingApp.expense_form) (st : Legacy.state) :
  WeddingApp.exTitle f = EmptyString ∨ WeddingApp.exCost f = EmptyString →
  Legacy.openExpenseModal_save f st = Legacy.emit (Alert "חובה למלא שם ועלות") st.
Proof.
  intros H. unfold Legacy.openExpenseModal_save.
  destruct H as [-> | ->]; [done|]. by rewrite orb_true_r.
Qed.

(** The legacy guest handler appends whatever the form holds. *)
Lemma legacy_guest_always_added (f : WeddingApp.guest_form) (st : Legacy.state) :
  ∃ g, get g "name" = VStr (WeddingApp.gName f)
       ∧ WeddingApp.guests (Legacy.data (Legacy.openGuestModal_save f st))
         = (WeddingApp.guests (Legacy.data st) ++ [g])%list.
Proof.
  eexists. split; [|unfold Legacy.openGuestModal_save;
                     rewrite Legacy_save_then_data; [reflexivity|done]].
  reflexivity.
Qed.

End Add.

(** C6.  The legacy guest handler has no check of the name: with the name
    left empty it appends a guest, writes the document to the storage and
    raises no signal, where the optimised engine only highlights the
    input. *)
Theorem legacy_guest_not_validated :
  let st := Legacy.openGuestModal_save nameless_guest (Legacy.boot open_storage) in
  ((λ g, get g "name") <$> WeddingApp.guests (Legacy.data st)) = [VStr EmptyString]
  ∧ WeddingApp.guests (Legacy.data (Legacy.boot open_storage)) = []
  ∧ item (Legacy.store st) = Some (WeddingApp.JSON_stringify (Legacy.data st))
  ∧ Legacy.log st = [Redraw; ModalClosed; ListDrawn "guests"]
  ∧ WeddingApp.openGuestModal_save nameless_guest (WeddingApp.boot open_storage)
    = WeddingApp._shakeInput "gName" (WeddingApp.boot open_storage).
Proof. repeat split. Qed.

(** ** Settings *)

(** C7, as stated, fails: saving the settings with the budget left empty
    sets the budget to 0, which is not in the range of the defaults. *)
Lemma settings_empty_budget_is_zero :
  let st := App.openSettings_save empty_budget (App.boot open_storage) in
  no_number (App.mSBudget empty_budget)
  ∧ get (App.settings (App.data st)) "budget" = VNum (Fin 0)
  ∧ in_default_range (Number (get (App.settings (App.data st)) "budget")) = false.
Proof. repeat split. Qed.

Section Settings.

Lemma App_settings_saved f st :
  App.settings (App.data (App.openSettings_save f st))
  = <["budget" := VNum (num_or (Number (VStr (App.mSBudget f))) (Fin 0))]>
    (<["date" := VStr (App.mSDate f)]>
    (<["bride" := VStr (str_or (trim (App.mSBride f)) "הכלה")]>
    (<["groom" := VStr (str_or (trim (App.mSGroom f)) "החתן")]>
       (App.settings (App.data st))))).
Proof.
  unfold App.openSettings_save. unfold App.toast, App.startCountdown, App.closeModal.
  by rewrite !App_emit_data, App_save_data.
Qed.

Lemma WeddingApp_settings_saved f st :
  WeddingApp.settings (WeddingApp.data (WeddingApp.openSettingsModal_save f st))
  = <["wedding_date" := VStr (WeddingApp.sDate f)]>
    (<["bride_name" := VStr (str_or (trim (WeddingApp.sBride f)) "הכלה")]>
    (<["groom_name" := VStr (str_or (trim (WeddingApp.sGroom f)) "החתן")]>
    (<["total_budget" := VNum (num_or (Number (VStr (WeddingApp.sBudget f))) (Fin 0))]>
       (WeddingApp.settings (WeddingApp.data st))))).
Proof.
  unfold WeddingApp.openSettingsModal_save.
  unfold WeddingApp.startCountdown, WeddingApp.closeModal.
  by rewrite !WeddingApp_emit_data, WeddingApp_saveData_data.
Qed.

Lemma App_onboarding_settings f t st :
  App.settings (App.data (App.finishOnboarding f t st))
  = <["guest_estimate" := VNum (num_or (Number (VStr (App.obGuests f))) (of_Z 300))]>
    (<["budget" := VNum (num_or (Number (VStr (App.obBudget f))) (of_Z 150000))]>
    (<["date" := VStr (App.obDate f)]>
    (<["bride" := VStr (str_or (trim (App.obBride f)) "הכלה")]>
    (<["groom" := VStr (str_or (trim (App.obGroom f)) "החתן")]>
       (App.settings (App.data st)))))).
Proof.
  unfold App.finishOnboarding. unfold App.toast, App.showApp, App.startCountdown,
    App.renderAll.
  by rewrite !App_emit_data, App_compute_data, App_save_data.
Qed.

End Settings.

(** C7, amended.  Saving the settings with a budget input that holds no
    number sets the budget to 0 in both engines, and leaves the guest
    estimate as it was; it is the onboarding step that falls back to
    150000 for the budget and to 300 for the guest estimate, the values
    the default document holds (100000 in the optimised engine). *)
Theorem settings_fallbacks
    (fa : App.settings_form) (fw : WeddingApp.settings_form)
    (fo : App.onboarding_form) (t : App.clock)
    (sa : App.state) (sw : WeddingApp.state) :
  (no_number (App.mSBudget fa) →
     let s := App.settings (App.data (App.openSettings_save fa sa)) in
     get s "budget" = VNum (Fin 0)
     ∧ s !! "guest_estimate" = App.settings (App.data sa) !! "guest_estimate")
  ∧ (no_number (WeddingApp.sBudget fw) →
     get (WeddingApp.settings (WeddingApp.data (WeddingApp.openSettingsModal_save fw sw)))
         "total_budget" = VNum (Fin 0))
  ∧ (no_number (App.obBudget fo) →
     get (App.settings (App.data (App.finishOnboarding fo t sa))) "budget"
     = VNum (of_Z 150000))
  ∧ (no_number (App.obGuests fo) →
     get (App.settings (App.data (App.finishOnboarding fo t sa))) "guest_estimate"
     = VNum (of_Z 300))
  ∧ get (App.settings App.defaults) "budget" = VNum (of_Z 150000)
  ∧ get (App.settings App.defaults) "guest_estimate" = VNum (of_Z 300)
  ∧ get (WeddingApp.settings WeddingApp.initial) "total_budget" = VNum (of_Z 100000).
Proof.
  unfold no_number. repeat split.
  - rewrite App_settings_saved. unfold get. rewrite lookup_insert_eq. simpl.
    by rewrite num_or_falsy.
  - rewrite App_settings_saved. by rewrite !lookup_insert_ne.
  - intros H. rewrite WeddingApp_settings_saved. unfold get.
    rewrite !lookup_insert_ne by done. rewrite lookup_insert_eq. simpl.
    by rewrite num_or_falsy.
  - intros H. rewrite App_onboarding_settings. unfold get.
    rewrite lookup_insert_ne by done. rewrite lookup_insert_eq. simpl.
    by rewrite num_or_falsy.
  - intros H. rewrite App_onboarding_settings. unfold get.
    rewrite lookup_insert_eq. simpl. by rewrite num_or_falsy.
Qed.

(** An instance: the settings form with the budget left empty. *)
Lemma settings_fallbacks_witness :
  no_number (App.mSBudget empty_budget)
  ∧ get (App.settings (App.data (App.openSettings_save empty_budget planner_with_two)))
        "budget" = VNum (Fin 0).
Proof.
  assert (H : no_number (App.mSBudget empty_budget)) by reflexivity.
  split; [exact H|].
  destruct (settings_fallbacks empty_budget
              {| WeddingApp.sBudget := EmptyString; WeddingApp.sGroom := "Dan";
                 WeddingApp.sBride := "Noa"; WeddingApp.sDate := "2026-06-15" |}
              {| App.obGroom := "Dan"; App.obBride := "Noa";
                 App.obDate := "2026-06-15"; App.obBudget := EmptyString;
                 App.obGuests := EmptyString |}
              a_clock planner_with_two wedding_with_two) as (Hs & _).
  exact (proj1 (Hs H)).
Defined.

(* ===================================================================== *)
(** * The render scheduler                                                *)
(* ===================================================================== *)

Section Scheduler.

Arguments redraws : simpl never.

Lemma redraws_app l1 l2 : redraws (l1 ++ l2) = redraws l1 + redraws l2.
Proof. unfold redraws. by rewrite List.filter_app, length_app. Qed.

(** What one mutation does to the scheduler. *)
Lemma App_save_sched st :
  let st' := App.save st in
  redraws (App.log st') = redraws (App.log st)
  ∧ (App._raf st = true → App._raf st' = true ∧ App.frame_queue st' = App.frame_queue st)
  ∧ (App._raf st = false →
     App._raf st' = true ∧ App.frame_queue st' = (App.frame_queue st ++ [CbRender])%list).
Proof.
  unfold App.save, App.scheduleRender, App.requestAnimationFrame, App.toast.
  destruct st as [d c r q s l]. cbn [App.data App.store].
  destruct (setItem _ _); destruct r; cbn; rewrite ?redraws_app;
    change (redraws [_]) with 0; repeat split; try done; lia.
Qed.

Lemma App_mutations_sched ds st :
  let st' := App_mutations ds st in
  redraws (App.log st') = redraws (App.log st)
  ∧ (App._raf st = true → App._raf st' = true ∧ App.frame_queue st' = App.frame_queue st)
  ∧ (App._raf st = false → ds ≠ [] →
     App._raf st' = true ∧ App.frame_queue st' = (App.frame_queue st ++ [CbRender])%list).
Proof.
  revert st. induction ds as [|d ds IH]; intros st; [done|].
  cbn [App_mutations fold_left]. fold (App_mutations ds (App.save (App.set_data d st))).
  destruct (IH (App.save (App.set_data d st))) as (Hl & Ht & _).
  destruct (App_save_sched (App.set_data d st)) as (Hl' & Ht' & Hf').
  cbv zeta in *. rewrite Hl, Hl'. split; [done|]. split.
  - intros Hr. destruct (Ht' Hr) as [H1 H2]. destruct (Ht H1) as [H3 H4].
    by rewrite H3, H4, H2.
  - intros Hr _. destruct (Hf' Hr) as [H1 H2]. destruct (Ht H1) as [H3 H4].
    by rewrite H3, H4, H2.
Qed.

(** Callbacks other than the render callback leave the state alone. *)
Lemma App_run_others during q st :
  no_render q = true → fold_left (App.run_callback during) q st = st.
Proof.
  revert st. induction q as [|cb q IH]; intros st H; [done|].
  simpl in H. apply andb_true_iff in H as [H1 H2].
  destruct cb; [done|]. simpl. by apply IH.
Qed.

Lemma App_frame_pending during st q :
  no_render q = true → App.frame_queue st = (q ++ [CbRender])%list →
  App.animation_frame_with during st
  = App.render_callback during (App.set_frame_queue [] st).
Proof.
  intros Hq Hst. unfold App.animation_frame_with. rewrite Hst.
  rewrite fold_left_app. simpl. by rewrite App_run_others.
Qed.

Lemma App_render_flag st :
  let r := App.renderAll (App.set_raf false (App.set_frame_queue [] st)) in
  App.log r = (App.log st ++ [Redraw])%list
  ∧ App._raf r = false
  ∧ App.frame_queue r = [].
Proof. unfold_app. destruct st as [d c r q s l]. by destruct c. Qed.

Lemma App_redraw_coalescing (ds ds' : list App.document) (st : App.state) :
  App_idle st = true → ds ≠ [] →
  (let st1 := App.animation_frame (App_mutations ds st) in
   redraws (App.log st1) = redraws (App.log st) + 1 ∧ App_idle st1 = true)
  ∧ (ds' ≠ [] →
     let st1 := App.animation_frame_with (App_mutations ds') (App_mutations ds st) in
     redraws (App.log st1) = redraws (App.log st) + 1
     ∧ App._raf st1 = true ∧ App.frame_queue st1 = [CbRender]
     ∧ redraws (App.log (App.animation_frame st1)) = redraws (App.log st) + 2).
Proof.
  intros Hidle Hds. apply andb_true_iff in Hidle as [Hraf Hq].
  apply negb_true_iff in Hraf.
  destruct (App_mutations_sched ds st) as (Hl & _ & Hf). cbv zeta in Hl, Hf.
  destruct (Hf Hraf Hds) as [Hr1 Hq1]. clear Hf.
  assert (Hframe : ∀ during,
    App.animation_frame_with during (App_mutations ds st)
    = during (App.renderAll (App.set_raf false
               (App.set_frame_queue [] (App_mutations ds st))))).
  { intros during. by rewrite (App_frame_pending during _ _ Hq Hq1). }
  destruct (App_render_flag (App_mutations ds st)) as (Hlog & Hraf2 & Hq2).
  cbv zeta in Hlog, Hraf2, Hq2.
  split.
  - cbv zeta. unfold App.animation_frame. rewrite Hframe. unfold id.
    rewrite Hlog, redraws_app, Hl. split; [done|].
    unfold App_idle. by rewrite Hraf2, Hq2.
  - intros Hds'. cbv zeta. rewrite Hframe.
    set (s2 := App.renderAll _) in *.
    destruct (App_mutations_sched ds' s2) as (Hl3 & _ & Hf3). cbv zeta in Hl3, Hf3.
    destruct (Hf3 Hraf2 Hds') as [Hr3 Hq3]. rewrite Hq2 in Hq3. simpl in Hq3.
    rewrite Hl3, Hlog, redraws_app, Hl. repeat split; try done.
    unfold App.animation_frame.
    rewrite (App_frame_pending id _ [] eq_refl Hq3). unfold App.render_callback, id.
    destruct (App_render_flag (App_mutations ds' s2)) as (Hlog4 & _ & _).
    cbv zeta in Hlog4. rewrite Hlog4.
    rewrite redraws_app, Hl3, Hlog, redraws_app, Hl. change (redraws [Redraw]) with 1. lia.
Qed.

Lemma WeddingApp_save_sched st :
  let st' := WeddingApp.saveData st in
  redraws (WeddingApp.log st') = redraws (WeddingApp.log st)
  ∧ (WeddingApp._renderQueued st = true →
     WeddingApp._renderQueued st' = true
     ∧ WeddingApp.frame_queue st' = WeddingApp.frame_queue st)
  ∧ (WeddingApp._renderQueued st = false →
     WeddingApp._renderQueued st' = true
     ∧ WeddingApp.frame_queue st' = (WeddingApp.frame_queue st ++ [CbRender])%list).
Proof.
  unfold WeddingApp.saveData, WeddingApp._scheduleRender,
    WeddingApp.requestAnimationFrame.
  destruct st as [d c r q s l]. cbn [WeddingApp.data WeddingApp.store].
  destruct (setItem _ _); destruct r; cbn; rewrite ?redraws_app;
    change (redraws [_]) with 0; repeat split; try done; lia.
Qed.

Lemma WeddingApp_mutations_sched ds st :
  let st' := WeddingApp_mutations ds st in
  redraws (WeddingApp.log st') = redraws (WeddingApp.log st)
  ∧ (WeddingApp._renderQueued st = true →
     WeddingApp._renderQueued st' = true
     ∧ WeddingApp.frame_queue st' = WeddingApp.frame_queue st)
  ∧ (WeddingApp._renderQueued st = false → ds ≠ [] →
     WeddingApp._renderQueued st' = true
     ∧ WeddingApp.frame_queue st' = (WeddingApp.frame_queue st ++ [CbRender])%list).
Proof.
  revert st. induction ds as [|d ds IH]; intros st; [done|].
  cbn [WeddingApp_mutations fold_left].
  fold (WeddingApp_mutations ds (WeddingApp.saveData (WeddingApp.set_data d st))).
  destruct (IH (WeddingApp.saveData (WeddingApp.set_data d st))) as (Hl & Ht & _).
  destruct (WeddingApp_save_sched (WeddingApp.set_data d st)) as (Hl' & Ht' & Hf').
  cbv zeta in *. rewrite Hl, Hl'. split; [done|]. split.
  - intros Hr. destruct (Ht' Hr) as [H1 H2]. destruct (Ht H1) as [H3 H4].
    by rewrite H3, H4, H2.
  - intros Hr _. destruct (Hf' Hr) as [H1 H2]. destruct (Ht H1) as [H3 H4].
    by rewrite H3, H4, H2.
Qed.

Lemma WeddingApp_run_others during q st :
  no_render q = true → fold_left (WeddingApp.run_callback during) q st = st.
Proof.
  revert st. induction q as [|cb q IH]; intros st H; [done|].
  simpl in H. apply andb_true_iff in H as [H1 H2].
  destruct cb; [done|]. simpl. by apply IH.
Qed.

Lemma WeddingApp_frame_pending during st q :
  no_render q = true → WeddingApp.frame_queue st = (q ++ [CbRender])%list →
  WeddingApp.animation_frame_with during st
  = WeddingApp.render_callback during (WeddingApp.set_frame_queue [] st).
Proof.
  intros Hq Hst. unfold WeddingApp.animation_frame_with. rewrite Hst.
  rewrite fold_left_app. simpl. by rewrite WeddingApp_run_others.
Qed.

Lemma WeddingApp_render_flag st :
  let r := WeddingApp.renderDashboard
             (WeddingApp.set_renderQueued false (WeddingApp.set_frame_queue [] st)) in
  WeddingApp.log r = (WeddingApp.log st ++ [Redraw])%list
  ∧ WeddingApp._renderQueued r = false
  ∧ WeddingApp.frame_queue r = [].
Proof. unfold_wedding. destruct st as [d c r q s l]. by destruct c. Qed.

Lemma WeddingApp_redraw_coalescing
    (ds ds' : list WeddingApp.document) (st : WeddingApp.state) :
  WeddingApp_idle st = true → ds ≠ [] →
  (let st1 := WeddingApp.animation_frame (WeddingApp_mutations ds st) in
   redraws (WeddingApp.log st1) = redraws (WeddingApp.log st) + 1
   ∧ WeddingApp_idle st1 = true)
  ∧ (ds' ≠ [] →
     let st1 := WeddingApp.animation_frame_with (WeddingApp_mutations ds')
                  (WeddingApp_mutations ds st) in
     redraws (WeddingApp.log st1) = redraws (WeddingApp.log st) + 1
     ∧ WeddingApp._renderQueued st1 = true ∧ WeddingApp.frame_queue st1 = [CbRender]
     ∧ redraws (WeddingApp.log (WeddingApp.animation_frame st1))
       = redraws (WeddingApp.log st) + 2).
Proof.
  intros Hidle Hds. apply andb_true_iff in Hidle as [Hraf Hq].
  apply negb_true_iff in Hraf.
  destruct (WeddingApp_mutations_sched ds st) as (Hl & _ & Hf). cbv zeta in Hl, Hf.
  destruct (Hf Hraf Hds) as [Hr1 Hq1]. clear Hf.
  assert (Hframe : ∀ during,
    WeddingApp.animation_frame_with during (WeddingApp_mutations ds st)
    = during (WeddingApp.renderDashboard (WeddingApp.set_renderQueued false
               (WeddingApp.set_frame_queue [] (WeddingApp_mutations ds st))))).
  { intros during. by rewrite (WeddingApp_frame_pending during _ _ Hq Hq1). }
  destruct (WeddingApp_render_flag (WeddingApp_mutations ds st)) as (Hlog & Hraf2 & Hq2).
  cbv zeta in Hlog, Hraf2, Hq2.
  split.
  - cbv zeta. unfold WeddingApp.animation_frame. rewrite Hframe. unfold id.
    rewrite Hlog, redraws_app, Hl. split; [done|].
    unfold WeddingApp_idle. by rewrite Hraf2, Hq2.
  - intros Hds'. cbv zeta. rewrite Hframe.
    set (s2 := WeddingApp.renderDashboard _) in *.
    destruct (WeddingApp_mutations_sched ds' s2) as (Hl3 & _ & Hf3). cbv zeta in Hl3, Hf3.
    destruct (Hf3 Hraf2 Hds') as [Hr3 Hq3]. rewrite Hq2 in Hq3. simpl in Hq3.
    rewrite Hl3, Hlog, redraws_app, Hl. repeat split; try done.
    unfold WeddingApp.animation_frame.
    rewrite (WeddingApp_frame_pending id _ [] eq_refl Hq3). unfold WeddingApp.render_callback, id.
    destruct (WeddingApp_render_flag (WeddingApp_mutations ds' s2)) as (Hlog4 & _ & _).
    cbv zeta in Hlog4. rewrite Hlog4.
    rewrite redraws_app, Hl3, Hlog, redraws_app, Hl. change (redraws [Redraw]) with 1. lia.
Qed.

End Scheduler.



(* ===================================================================== *)
(** * The storage adapter                                                 *)
(* ===================================================================== *)

Section Storage.

Lemma json_value_safe v : json_safe v = true → json_value v = Some v.
Proof. destruct v as [| | |n|]; try done. simpl. by intros ->. Qed.

Lemma json_obj_safe (o : obj) : obj_safe o = true → json_obj o = o.
Proof.
  intros H. apply map_eq. intros k. unfold json_obj. rewrite lookup_omap.
  destruct (o !! k) as [v|] eqn:E; [|done]. simpl.
  apply json_value_safe.
  unfold obj_safe in H. rewrite forallb_forall in H.
  apply (H (k, v)). apply list_elem_of_In. by apply elem_of_map_to_list.
Qed.

Lemma json_list_safe (l : list obj) : forallb obj_safe l = true → json_obj <$> l = l.
Proof.
  induction l as [|o l IH]; [done|]. cbn [forallb]. intros H.
  apply andb_true_iff in H as [H1 H2]. by rewrite fmap_cons, json_obj_safe, IH.
Qed.

Lemma union_has_keys (o model : obj) : has_keys_of o model = true → o ∪ model = o.
Proof.
  intros H. apply map_eq. intros k. rewrite lookup_union.
  destruct (o !! k) as [v|] eqn:E; [by destruct (model !! k)|].
  destruct (model !! k) as [w|] eqn:Em; [|done].
  unfold has_keys_of in H. rewrite forallb_forall in H.
  assert (Hin : List.In (k, w) (map_to_list model))
    by (by apply list_elem_of_In, elem_of_map_to_list).
  apply H, bool_decide_eq_true in Hin. simpl in Hin. rewrite E in Hin.
  by destruct Hin.
Qed.

Lemma App_load_save st :
  writable (App.store st) = true → App_representable (App.data st) = true →
  App.data (App.load (App.save st)) = App.data st.
Proof.
  intros Hw Hr. unfold App_representable in Hr.
  repeat (apply andb_true_iff in Hr as [Hr ?]).
  unfold App.save, setItem. rewrite Hw.
  unfold App.scheduleRender, App.requestAnimationFrame, App.load.
  destruct st as [[ob se ex gu ta] c r q s l]; simpl in *.
  destruct r; simpl; unfold App.merge_defaults; simpl;
    rewrite !json_list_safe, json_obj_safe, json_value_safe, union_has_keys by done;
    reflexivity.
Qed.

Lemma WeddingApp_load_save st :
  writable (WeddingApp.store st) = true →
  WeddingApp_representable (WeddingApp.data st) = true →
  WeddingApp.data (WeddingApp.loadData (WeddingApp.saveData st)) = WeddingApp.data st.
Proof.
  intros Hw Hr. unfold WeddingApp_representable in Hr.
  repeat (apply andb_true_iff in Hr as [Hr ?]).
  unfold WeddingApp.saveData, setItem. rewrite Hw.
  unfold WeddingApp._scheduleRender, WeddingApp.requestAnimationFrame, WeddingApp.loadData.
  destruct st as [[se ex gu] c r q s l]; simpl in *.
  destruct r; simpl;
    rewrite !json_list_safe, json_obj_safe by done;
    by rewrite (idemp_L (∪)).
Qed.

(** The text [save] stores is made from the document alone. *)
Lemma App_save_ignores_cache c st :
  App.store (App.save (App.set_cache c st)) = App.store (App.save st).
Proof.
  unfold App.save, App.scheduleRender, App.requestAnimationFrame, App.toast.
  destruct st as [d c0 r q s l]. cbn [App.data App.store App.set_cache].
  by destruct (setItem _ _); destruct r.
Qed.

Lemma WeddingApp_saveData_ignores_cache c st :
  WeddingApp.store (WeddingApp.saveData (WeddingApp.set_cachedTotals c st))
  = WeddingApp.store (WeddingApp.saveData st).
Proof.
  unfold WeddingApp.saveData, WeddingApp._scheduleRender,
    WeddingApp.requestAnimationFrame.
  destruct st as [d c0 r q s l].
  cbn [WeddingApp.data WeddingApp.store WeddingApp.set_cachedTotals].
  by destruct (setItem _ _); destruct r.
Qed.

End Storage.



(* ===================================================================== *)
(** * HTML escaping                                                       *)
(* ===================================================================== *)

Section Escaping.

Lemma plain_ok c : plain c = true → (c ∉ forbidden) ∧ c ≠ "&"%char.
Proof.
  unfold plain, entity, forbidden, quote.
  destruct (Ascii.eqb_spec c "&"); [done|].
  destruct (Ascii.eqb_spec c "<"); [done|].
  destruct (Ascii.eqb_spec c ">"); [done|].
  destruct (Ascii.eqb_spec c (ascii_of_nat 34)); [done|].
  destruct (Ascii.eqb_spec c "'"); [done|].
  intros _. split; [|done]. rewrite !elem_of_cons, elem_of_nil. intuition.
Qed.

Lemma well_escaped_nil : well_escaped EmptyString.
Proof. intros [|? ?] post c H; discriminate. Qed.

Lemma well_escaped_plain c r :
  plain c = true → well_escaped r → well_escaped (String c r).
Proof.
  intros Hc Hr [|x pre] post d H; simpl in H; injection H as ? ?; subst.
  - destruct (plain_ok _ Hc). split; [done|]. by intros ->.
  - by apply (Hr pre post d).
Qed.

Lemma well_escaped_amp r :
  (∃ e rest, e ∈ entities ∧ String "&" r = e +:+ rest) →
  well_escaped r → well_escaped (String "&" r).
Proof.
  intros He Hr [|x pre] post d H; simpl in H; injection H as ? ?; subst.
  - split; [|by intros _]. unfold forbidden, quote.
    rewrite !elem_of_cons, elem_of_nil.
    intros [?|[?|[?|[?|[]]]]]; discriminate.
  - by apply (Hr pre post d).
Qed.

Lemma well_escaped_amp_tail e tail r :
  e = String "&" tail → e ∈ entities → well_escaped (tail +:+ r) →
  well_escaped (e +:+ r).
Proof.
  intros -> He Hr. simpl. apply well_escaped_amp; [|done].
  by exists (String "&" tail), r.
Qed.

Lemma entity_in c e : entity c = Some e → e ∈ entities.
Proof.
  unfold entity, entities. intros He.
  repeat (destruct (Ascii.eqb c _); [injection He as <-; set_solver|]).
  discriminate.
Qed.

Lemma well_escaped_entity e r :
  e ∈ entities → well_escaped r → well_escaped (e +:+ r).
Proof.
  intros He Hr. pose proof He as He'. unfold entities in He'.
  rewrite !elem_of_cons, elem_of_nil in He'.
  destruct He' as [->|[->|[->|[->|[->|[]]]]]];
    (eapply well_escaped_amp_tail; [reflexivity|exact He|]);
    simpl; repeat (apply well_escaped_plain; [reflexivity|]); exact Hr.
Qed.

Lemma replace_specials_escaped s : well_escaped (replace_specials s).
Proof.
  induction s as [|c s IH]; [apply well_escaped_nil|]. simpl.
  destruct (entity c) as [e|] eqn:E.
  - apply well_escaped_entity; [by apply (entity_in c)|done].
  - apply well_escaped_plain; [|done]. unfold plain. by rewrite E.
Qed.

End Escaping.

(** C10.  For every input value the escaping helper of either engine
    returns a string in which none of the characters less-than,
    greater-than, double quote and apostrophe occurs and every ampersand
    starts one of the five entities; for null, undefined and the empty
    string it returns the empty string. *)
Theorem escape_html_safe (NumberToString : num → string) (v : value) :
  well_escaped (App.esc NumberToString v)
  ∧ well_escaped (WeddingApp._escapeHtml NumberToString v)
  ∧ App.esc NumberToString VNull = EmptyString
  ∧ App.esc NumberToString VUndef = EmptyString
  ∧ App.esc NumberToString (VStr EmptyString) = EmptyString
  ∧ WeddingApp._escapeHtml NumberToString VNull = EmptyString
  ∧ WeddingApp._escapeHtml NumberToString VUndef = EmptyString
  ∧ WeddingApp._escapeHtml NumberToString (VStr EmptyString) = EmptyString.
Proof.
  assert (H : ∀ s, well_escaped
                     (if negb (truthy v) then EmptyString else replace_specials s)).
  { intros s. destruct (truthy v); simpl.
    - apply replace_specials_escaped.
    - apply well_escaped_nil. }
  split; [apply H|]. split; [apply H|]. done.
Qed.

(** Markup in a title comes out as text. *)
Example escape_example (N : num → string) :
  App.esc N (VStr "<b>Tom & 'Jerry'</b>")
  = "&lt;b&gt;Tom &amp; &#039;Jerry&#039;&lt;/b&gt;".
Proof. reflexivity. Qed.

